(** * Ethiopia financial-inclusion data: loader, validator, summariser,
      identifier generator and the dashboard's derived metrics

    A shallow embedding of [src/data_loader.py] and of the computational
    fragments of [dashboard/app.py], followed by the properties the
    specification states about them.

    Conventions of the embedding
    - Python [str] is [string]; the identifiers and column names of the data
      set are ASCII, and the regular-expression classes [[A-Z]] and [\d] are
      read on ASCII characters.
    - Python [int] is [N] or [Z] (unbounded); [float]/[numpy.float64] is the
      kernel's binary64 [float], whose division never raises.
    - A Python [dict] is an association list in insertion order.
    - A raised exception is the [Raise] case of [result]. *)

From Stdlib Require Import String Ascii List Bool Arith NArith ZArith Lia FinFun.
From Stdlib Require Import Permutation Sorted.
From Stdlib Require Import DecimalString DecimalN DecimalZ.
From Stdlib Require Import Floats.
Import ListNotations.

Set Warnings "-inexact-float".

Local Open Scope list_scope.
Local Open Scope string_scope.

(* ================================================================== *)
(** * A small Python runtime *)
(* ================================================================== *)

Module Py.

(** The exceptions the embedded code can raise. *)
Inductive exn : Type :=
| KeyError (key : string).

(** The outcome of a call: a value, or a raised exception. *)
Inductive result (A : Type) : Type :=
| Ok (a : A)
| Raise (e : exn).
Arguments Ok {A} a.
Arguments Raise {A} e.

Definition bind {A B : Type} (r : result A) (k : A -> result B) : result B :=
  match r with
  | Ok a => k a
  | Raise e => Raise e
  end.

(** [x in l] on a list of strings. *)
Definition str_in (x : string) (l : list string) : bool :=
  if in_dec string_dec x l then true else false.

(** [str(n)] and the [{n}] of an f-string, for a non-negative [int]. *)
Definition str_of_N (n : N) : string :=
  NilEmpty.string_of_uint (N.to_uint n).

(** [str(z)] for any [int]. *)
Definition str_of_Z (z : Z) : string :=
  NilEmpty.string_of_int (Z.to_int z).

Fixpoint zeros (k : nat) : string :=
  match k with
  | O => ""
  | S k' => String "0" (zeros k')
  end.

(** The format [{n:04d}]: decimal, left-padded with zeros to width 4. *)
Definition fmt_04d (n : N) : string :=
  let s := str_of_N n in
  zeros (4 - String.length s) ++ s.

Definition digit_val (c : ascii) : N := N_of_ascii c - 48.

Fixpoint int_acc (acc : N) (s : string) : N :=
  match s with
  | EmptyString => acc
  | String c s' => int_acc (10 * acc + digit_val c) s'
  end.

(** [int(s)] on a non-empty string of decimal digits. *)
Definition int_of_digits (s : string) : N := int_acc 0 s.

(** ** Dictionaries: association lists in insertion order *)

Section Dict.
Context {V : Type}.

Definition dict : Type := list (string * V).

Fixpoint dict_get (k : string) (d : dict) : option V :=
  match d with
  | [] => None
  | (k', v) :: d' => if String.eqb k k' then Some v else dict_get k d'
  end.

(** [d[k] = v]: replaces the value of an existing key in place, appends
    a new key at the end. *)
Fixpoint dict_set (k : string) (v : V) (d : dict) : dict :=
  match d with
  | [] => [(k, v)]
  | (k', v') :: d' =>
      if String.eqb k k' then (k', v) :: d' else (k', v') :: dict_set k v d'
  end.

Definition dict_keys (d : dict) : list string := map fst d.

(** [len(d)]. *)
Definition dict_len (d : dict) : nat := List.length d.
End Dict.
Arguments dict V : clear implicits.

End Py.

Import Py.

Notation "x <- r ;; k" := (Py.bind r (fun x => k))
  (at level 61, r at next level, right associativity).

(* ================================================================== *)
(** * [generate_record_id] (data_loader.py, lines 124-143) *)
(* ================================================================== *)

Module IdGenerator.

Definition is_upper (c : ascii) : bool :=
  let n := N_of_ascii c in ((65 <=? n) && (n <=? 90))%N.

Definition is_digit (c : ascii) : bool :=
  let n := N_of_ascii c in ((48 <=? n) && (n <=? 57))%N.

(** The longest prefix of [s] whose characters satisfy [p], and the rest. *)
Fixpoint span (p : ascii -> bool) (s : string) : string * string :=
  match s with
  | EmptyString => ("", "")
  | String c s' =>
      if p c then let (a, b) := span p s' in (String c a, b)
      else ("", s)
  end.

(** [re.match(r'([A-Z]+)_(\d+)', base_id)] and [match.groups()].  The
    pattern is anchored at the start only.  Both classes are greedy, and
    giving back a letter never helps since the next character must be
    ['_'], so the match takes the longest run of letters, one underscore,
    and the longest run of digits. *)
Definition re_match (base_id : string) : option (string * string) :=
  let (prefix, rest) := span is_upper base_id in
  match prefix, rest with
  | String _ _, String "_" rest' =>
      let (num, _) := span is_digit rest' in
      match num with
      | String _ _ => Some (prefix, num)
      | EmptyString => None
      end
  | _, _ => None
  end.

(** [while render(num) in existing_ids: num += 1], the value of [num]
    when the loop is left; [None] when [fuel] tests did not leave it. *)
Fixpoint while_taken (fuel : nat) (render : N -> string)
         (existing_ids : list string) (num : N) : option N :=
  match fuel with
  | O => None
  | S fuel' =>
      if str_in (render num) existing_ids
      then while_taken fuel' render existing_ids (N.succ num)
      else Some num
  end.

(** The test of the first loop: [f"{prefix}_{num}"]. *)
Definition plain (prefix : string) (num : N) : string :=
  prefix ++ "_" ++ str_of_N num.

(** The value returned after the first loop: [f"{prefix}_{num:04d}"]. *)
Definition padded (prefix : string) (num : N) : string :=
  prefix ++ "_" ++ fmt_04d num.

(** The test and the value of the second loop: [f"{base_id}_{i}"]. *)
Definition suffixed (base_id : string) (i : N) : string :=
  base_id ++ "_" ++ str_of_N i.

(** Each loop is left after at most [len(existing_ids) + 1] tests (see
    [generate_record_id_returns]), which is the fuel given here. *)
Definition generate_record_id (base_id : string) (existing_ids : list string)
  : option string :=
  if negb (str_in base_id existing_ids) then Some base_id
  else
    let fuel := S (List.length existing_ids) in
    match re_match base_id with
    | Some (prefix, num) =>
        let num := int_of_digits num in
        option_map (padded prefix)
                   (while_taken fuel (plain prefix) existing_ids num)
    | None =>
        option_map (suffixed base_id)
                   (while_taken fuel (suffixed base_id) existing_ids 1%N)
    end.

End IdGenerator.

(* ================================================================== *)
(** * [EthiopiaFIDataLoader] (data_loader.py, lines 10-122) *)
(* ================================================================== *)

Module DataLoader.

(** ** Frames *)

(** A cell of a frame read from a CSV file: a value, or missing (NaN). *)
Definition cell : Type := option string.

(** Equality as [isin], [unique] and [value_counts] see it: a missing cell
    equals a missing cell. *)
Definition cell_eqb (a b : cell) : bool :=
  match a, b with
  | Some x, Some y => String.eqb x y
  | None, None => true
  | _, _ => false
  end.

(** A [pandas.DataFrame]: its column labels and its rows, each row giving
    the cells in the order of the labels.  The labels are distinct, as
    [read_csv] makes them. *)
Record DataFrame : Type := {
  columns : list string;
  rows : list (list cell)
}.

Fixpoint index_of (name : string) (cols : list string) : option nat :=
  match cols with
  | [] => None
  | c :: cols' =>
      if String.eqb name c then Some O
      else option_map S (index_of name cols')
  end.

(** [df[name]]: the column as a list of cells, [KeyError] when no column
    has that label. *)
Definition getitem (df : DataFrame) (name : string) : result (list cell) :=
  match index_of name (columns df) with
  | Some i => Ok (map (fun r => nth i r None) (rows df))
  | None => Raise (KeyError name)
  end.

Fixpoint select {A : Type} (mask : list bool) (l : list A) : list A :=
  match mask, l with
  | b :: mask', x :: l' => if b then x :: select mask' l' else select mask' l'
  | _, _ => []
  end.

(** [df[mask]]: the rows at which the boolean series holds. *)
Definition getitem_mask (df : DataFrame) (mask : list bool) : DataFrame :=
  {| columns := columns df; rows := select mask (rows df) |}.

(** [series == s], element by element; a missing cell equals no string. *)
Definition series_eq (series : list cell) (s : string) : list bool :=
  map (cell_eqb (Some s)) series.

(** [series.isin(values)]. *)
Definition isin (series : list cell) (values : list cell) : list bool :=
  map (fun c => existsb (cell_eqb c) values) series.

(** [~mask]. *)
Definition invert (mask : list bool) : list bool := map negb mask.

Section Unique.
Context {A : Type} (eqb : A -> A -> bool).

Fixpoint unique_from (seen : list A) (l : list A) : list A :=
  match l with
  | [] => []
  | x :: l' =>
      if existsb (eqb x) seen then unique_from seen l'
      else x :: unique_from (x :: seen) l'
  end.

(** [series.unique()]: the distinct values in the order of first
    appearance. *)
Definition unique (l : list A) : list A := unique_from [] l.
End Unique.

(** [len(df)]. *)
Definition len (df : DataFrame) : nat := List.length (rows df).

(** ** The loader *)

(** The two attributes the validator and the summariser read.  The loader
    starts with both at [None]; [load_all_data] sets each one whose file
    exists. *)
Record EthiopiaFIDataLoader : Type := {
  unified_data : option DataFrame;
  reference_codes : option DataFrame
}.

(** ** [validate_data] *)

(** The value of [validation_results['summary']]. *)
Record ValidationSummary : Type := {
  total_records : nat;
  valid_record_types : list cell;
  data_quality : string
}.

(** The values stored in the report. *)
Inductive report_value : Type :=
| VMessage (msg : string)
| VColumns (cols : list string)
| VValues (vals : list cell)
| VSummary (s : ValidationSummary).

Definition required_cols : list string :=
  ["record_id"; "record_type"; "category"; "pillar";
   "indicator"; "indicator_code"; "observation_date"].

(** The columns of [required_cols] that the frame lacks. *)
Definition missing_cols (df : DataFrame) : list string :=
  filter (fun col => negb (str_in col (columns df))) required_cols.

(** The [summary] entry is built from the dictionary as it stands before
    the entry is stored: the dictionary display on the right of the
    assignment is evaluated first, so [len(validation_results)] counts the
    issue categories only. *)
Definition validate_data (self : EthiopiaFIDataLoader)
  : result (dict report_value) :=
  let validation_results : dict report_value := [] in
  match unified_data self, reference_codes self with
  | Some unified, Some reference =>
      let missing := missing_cols unified in
      let validation_results :=
        match missing with
        | [] => validation_results
        | _ :: _ => dict_set "missing_columns" (VColumns missing) validation_results
        end in
      field <- getitem reference "field" ;;
      valid <- getitem (getitem_mask reference (series_eq field "record_type")) "code" ;;
      record_type <- getitem unified "record_type" ;;
      let invalid_record_types :=
        getitem_mask unified (invert (isin record_type valid)) in
      validation_results <-
        (if (0 <? len invalid_record_types)%nat
         then
           offending <- getitem invalid_record_types "record_type" ;;
           Ok (dict_set "invalid_record_types"
                        (VValues (unique cell_eqb offending)) validation_results)
         else Ok validation_results) ;;
      let summary :=
        {| total_records := len unified;
           valid_record_types := valid;
           data_quality :=
             if (dict_len validation_results =? 1)%nat
             then "PASS" else "NEEDS REVIEW" |} in
      Ok (dict_set "summary" (VSummary summary) validation_results)
  | _, _ => Ok [("error", VMessage "Data not loaded")]
  end.

(** ** [get_data_summary] *)

(** The non-missing values of a series. *)
Fixpoint dropna (series : list cell) : list string :=
  match series with
  | [] => []
  | Some v :: series' => v :: dropna series'
  | None :: series' => dropna series'
  end.

(** The number of cells of the series that hold [v]. *)
Definition occurrences (v : string) (series : list cell) : nat :=
  List.length (filter (cell_eqb (Some v)) series).

(** One step of the sort by count, largest first: an entry goes behind the
    entries whose count is not smaller. *)
Fixpoint insert_desc (x : string * nat) (l : list (string * nat))
  : list (string * nat) :=
  match l with
  | [] => [x]
  | y :: l' =>
      if (snd x <=? snd y)%nat then y :: insert_desc x l' else x :: y :: l'
  end.

Definition sort_desc (l : list (string * nat)) : list (string * nat) :=
  fold_left (fun acc x => insert_desc x acc) l [].

(** [series.value_counts()]: each distinct non-missing value with the number
    of its occurrences, the largest count first.  Equal counts are kept here
    in the order of first appearance; no property below depends on it. *)
Definition value_counts (series : list cell) : list (string * nat) :=
  sort_desc
    (map (fun v => (v, occurrences v series)) (unique String.eqb (dropna series))).

(** A cell of a summary table. *)
Inductive tcell : Type :=
| TStr (s : string)
| TInt (n : nat)
| TFloat (x : float).

(** A summary table: a small frame of values, counts and percentages. *)
Record Table : Type := {
  t_columns : list string;
  t_rows : list (list tcell)
}.

(** An [int] as a [float64]; exact below 2^53. *)
Definition float_of_nat (n : nat) : float :=
  PrimFloat.of_uint63 (Uint63.of_Z (Z.of_nat n)).

(** Rounding to the nearest integer, ties to even, of a [float64] between 0
    and 2^51: adding and removing 2^52 leaves no room for a fraction.  The
    percentages times ten lie between 0 and 1000. *)
Definition rint (x : float) : float :=
  ((x + 4503599627370496) - 4503599627370496)%float.

(** [.round(1)] as numpy computes it: scale by ten, round, scale back. *)
Definition round1 (x : float) : float := (rint (x * 10) / 10)%float.

(** [(count / len(self.unified_data) * 100).round(1)]. *)
Definition percentage (count total : nat) : float :=
  round1 (float_of_nat count / float_of_nat total * 100)%float.

(** [value_counts().reset_index()] with [columns = [name, 'count']]. *)
Definition count_table (name : string) (vc : list (string * nat)) : Table :=
  {| t_columns := [name; "count"];
     t_rows := map (fun p => [TStr (fst p); TInt (snd p)]) vc |}.

(** The same with the added column [percentage]. *)
Definition percentage_table (name : string) (vc : list (string * nat))
           (total : nat) : Table :=
  {| t_columns := [name; "count"; "percentage"];
     t_rows :=
       map (fun p => [TStr (fst p); TInt (snd p);
                      TFloat (percentage (snd p) total)]) vc |}.

Definition get_data_summary (self : EthiopiaFIDataLoader)
  : result (dict Table) :=
  match unified_data self with
  | None => Ok []
  | Some unified =>
      let summary : dict Table := [] in
      record_type <- getitem unified "record_type" ;;
      let record_type_summary :=
        percentage_table "record_type" (value_counts record_type) (len unified) in
      let summary := dict_set "record_types" record_type_summary summary in
      pillar <- getitem unified "pillar" ;;
      let pillar_summary := count_table "pillar" (value_counts pillar) in
      let summary := dict_set "pillars" pillar_summary summary in
      source_type <- getitem unified "source_type" ;;
      let source_summary := count_table "source_type" (value_counts source_type) in
      let summary := dict_set "sources" source_summary summary in
      confidence <- getitem unified "confidence" ;;
      let confidence_summary := count_table "confidence" (value_counts confidence) in
      let summary := dict_set "confidence" confidence_summary summary in
      Ok summary
  end.

End DataLoader.

(* ================================================================== *)
(** * Derived metrics of the dashboard (app.py) *)
(* ================================================================== *)

Module Dashboard.

Local Open Scope float_scope.

(** A Python [int] as a [float64], as numpy converts the [int] operand of a
    [float64] operation; exact below 2^53 in absolute value. *)
Definition float_of_Z (z : Z) : float :=
  if (z <? 0)%Z then - PrimFloat.of_uint63 (Uint63.of_Z (- z))
  else PrimFloat.of_uint63 (Uint63.of_Z z).

(** ** Growth percentage (lines 269-279 and 517-527)

    The values come out of a frame as [numpy.float64]; their division
    follows IEEE 754 and returns an infinity or NaN for a zero divisor. *)

(** [((b / a) - 1) * 100]: the shared expression of [delta_pct],
    [growth_2025], [growth_2026] and [cumulative]. *)
Definition growth_pct (a b : float) : float := ((b / a) - 1) * 100.

(** The third metric of the overview, from the [value_numeric] column of
    [p2p_data] (not empty) in row order: [None] when there is one row. *)
Definition delta_pct (value_numeric : list float) : option float :=
  match rev value_numeric with
  | last :: before_last :: _ =>
      let latest_p2p := last / 1e6 in
      let prev_p2p := before_last / 1e6 in
      Some (growth_pct prev_p2p latest_p2p)
  | _ => None
  end.

(** The three metrics of the P2P tab, from the [value_millions] of the
    forecast rows and of the last historical row. *)
Definition p2p_growth (forecast : list float) (last_historical : float)
  : option (float * float * float) :=
  match forecast with
  | f0 :: f1 :: f2 :: _ =>
      Some (growth_pct last_historical f0,
            growth_pct f0 f1,
            growth_pct last_historical f2)
  | _ => None
  end.

(** ** Growth by period (lines 547-557) *)

(** An entry of [growth_data]. *)
Record GrowthRow : Type := {
  Period : string;
  Indicator : string;
  Growth_pp : float;
  Annual_pp : float
}.

(** The entry for two consecutive rows of [acc_series], each row given by
    the year of its [observation_date] and its [value_numeric].  The
    divisor [year2 - year1] is an [int]. *)
Definition growth_row (r1 r2 : Z * float) : GrowthRow :=
  let year1 := fst r1 in
  let year2 := fst r2 in
  let growth := snd r2 - snd r1 in
  {| Period := str_of_Z year1 ++ "-" ++ str_of_Z year2;
     Indicator := "Account Ownership";
     Growth_pp := growth;
     Annual_pp := growth / float_of_Z (year2 - year1) |}.

Fixpoint growth_from (prev : Z * float) (rest : list (Z * float))
  : list GrowthRow :=
  match rest with
  | [] => []
  | cur :: rest' => growth_row prev cur :: growth_from cur rest'
  end.

(** [for i in range(1, len(acc_series))], under [len(acc_series) > 1]. *)
Definition growth_data (acc_series : list (Z * float)) : list GrowthRow :=
  match acc_series with
  | [] => []
  | first :: rest => growth_from first rest
  end.

(** ** Milestones (lines 731-744) *)

(** An entry of [milestones]: year, threshold, label. *)
Definition milestone : Type := Z * Z * string.

Definition m_year (m : milestone) : Z := fst (fst m).
Definition m_threshold (m : milestone) : Z := snd (fst m).

(** [t in [m[1] for m in milestones]]. *)
Definition recorded (t : Z) (milestones : list milestone) : bool :=
  existsb (Z.eqb t) (map m_threshold milestones).

(** [proj >= t] for a [float64] projection and an [int] threshold. *)
Definition reaches (proj : float) (t : Z) : bool := float_of_Z t <=? proj.

(** One [if] of the loop body. *)
Definition check (year : Z) (proj : float) (t : Z) (label : string)
           (milestones : list milestone) : list milestone :=
  if reaches proj t && negb (recorded t milestones)
  then (milestones ++ [(year, t, label)])%list
  else milestones.

(** The loop body: the three [if]s in their order. *)
Definition milestones_body (milestones : list milestone) (row : Z * float)
  : list milestone :=
  let (year, proj) := row in
  let milestones := check year proj 50 "Half of adults with accounts" milestones in
  let milestones := check year proj 60 "Majority inclusion milestone" milestones in
  let milestones := check year proj 70 "NFIS-II target achieved" milestones in
  milestones.

(** [for year, proj in zip(years, projections)], from the empty list. *)
Definition milestones (series : list (Z * float)) : list milestone :=
  fold_left milestones_body series [].

(** The same scan with the thresholds and their labels as a list, for the
    statements that speak of any list of thresholds; [milestones] is its
    instance at [fixed_thresholds]. *)
Definition detect_body (thresholds : list (Z * string))
           (milestones : list milestone) (row : Z * float) : list milestone :=
  fold_left (fun ms tl => check (fst row) (snd row) (fst tl) (snd tl) ms)
            thresholds milestones.

Definition detect (thresholds : list (Z * string)) (series : list (Z * float))
  : list milestone :=
  fold_left (detect_body thresholds) series [].

Definition fixed_thresholds : list (Z * string) :=
  [(50%Z, "Half of adults with accounts");
   (60%Z, "Majority inclusion milestone");
   (70%Z, "NFIS-II target achieved")].

End Dashboard.

(* ================================================================== *)
(** * Vocabulary of the statements, and sample data *)
(* ================================================================== *)

Module Samples.
Import DataLoader Dashboard.

(** The keys of the summary with the column each one groups by. *)
Definition grouping : list (string * string) :=
  [("record_types", "record_type"); ("pillars", "pillar");
   ("sources", "source_type"); ("confidence", "confidence")].

Definition grouping_columns : list string := map snd grouping.

(** [counts] is the frequency table of [series]: it lists each value that
    occurs in the series once, with the number of its occurrences, the
    largest count first. *)
Definition frequency_table (series : list cell) (counts : list (string * nat))
  : Prop :=
  (forall v n, In (v, n) counts <-> In (Some v) series /\ n = occurrences v series)
  /\ NoDup (map fst counts)
  /\ StronglySorted (fun a b => (snd b <= snd a)%nat) counts.

(** A table reports a percentage when it has a column of that name. *)
Definition reports_percentage (t : Table) : Prop := In "percentage" (t_columns t).

(** The reference codes: two record types and one pillar. *)
Definition reference : DataFrame :=
  {| columns := ["field"; "code"];
     rows := [[Some "record_type"; Some "observation"];
              [Some "record_type"; Some "event"];
              [Some "pillar"; Some "access"]] |}.

Definition record (id type : string) : list cell :=
  [Some id; Some type; Some "access"; Some "ACCESS"; Some "Account Ownership";
   Some "ACC_OWNERSHIP"; Some "2014-12-31"].

(** Two well-formed records with distinct identifiers. *)
Definition clean : DataFrame :=
  {| columns := required_cols;
     rows := [record "REC_0001" "observation"; record "EVT_0001" "event"] |}.

(** The same records in a frame without the column [category]. *)
Definition no_category : DataFrame :=
  {| columns := ["record_id"; "record_type"; "pillar"; "indicator";
                 "indicator_code"; "observation_date"];
     rows := [[Some "REC_0001"; Some "observation"; Some "ACCESS";
               Some "Account Ownership"; Some "ACC_OWNERSHIP"; Some "2014-12-31"];
              [Some "EVT_0001"; Some "event"; Some "ACCESS";
               Some "Account Ownership"; Some "ACC_OWNERSHIP"; Some "2021-05-17"]] |}.

(** Three records, two of them with the identifier [REC_0001]. *)
Definition duplicated : DataFrame :=
  {| columns := required_cols;
     rows := [record "REC_0001" "observation"; record "REC_0001" "observation";
              record "EVT_0001" "event"] |}.

(** Eight observations and two events; no record has a source type. *)
Definition ten_records : DataFrame :=
  {| columns := ["record_type"; "pillar"; "source_type"; "confidence"];
     rows :=
       map (fun type => [Some type; Some "access"; None; Some "high"])
           (repeat "observation" 8 ++ repeat "event" 2)%list |}.

(** The same records in a frame without the column [pillar]. *)
Definition no_pillar : DataFrame :=
  {| columns := ["record_type"; "source_type"; "confidence"];
     rows :=
       map (fun type => [Some type; None; Some "high"])
           (repeat "observation" 8 ++ repeat "event" 2)%list |}.

Definition loaded (unified reference : DataFrame) : EthiopiaFIDataLoader :=
  {| unified_data := Some unified; reference_codes := Some reference |}.

(** A loader whose reference codes file was not found. *)
Definition without_reference (unified : DataFrame) : EthiopiaFIDataLoader :=
  {| unified_data := Some unified; reference_codes := None |}.

Definition not_loaded : EthiopiaFIDataLoader :=
  {| unified_data := None; reference_codes := None |}.

(** The account ownership series of the specification's examples. *)
Definition ownership : list (Z * float) :=
  [(2014%Z, 22%float); (2017%Z, 35%float); (2021%Z, 47%float);
   (2025%Z, 54.2%float); (2026%Z, 56.8%float); (2027%Z, 59.4%float)].

(** The entries of a milestone list for one threshold. *)
Definition entries (t : Z) (ms : list milestone) : list milestone :=
  filter (fun m => Z.eqb (m_threshold m) t) ms.

(** The first row of the series whose value reaches [t]. *)
Definition first_crossing (t : Z) (series : list (Z * float)) : option (Z * float) :=
  find (fun row => reaches (snd row) t) series.

(** The label a threshold list gives to [t]: that of its first entry for [t]. *)
Definition label_of (t : Z) (thresholds : list (Z * string)) : option string :=
  option_map snd (find (fun tl => Z.eqb (fst tl) t) thresholds).

(** A float that is an infinity or NaN, read on its IEEE 754 value. *)
Definition unbounded (x : spec_float) : bool :=
  match x with
  | S754_infinity _ | S754_nan => true
  | _ => false
  end.

(** The consecutive pairs of a list. *)
Definition consecutive {A : Type} (l : list A) : list (A * A) := combine l (tl l).

End Samples.

(* ================================================================== *)
(** * Paths and files *)
(* ================================================================== *)

Module Os.

(** [s.startswith('/')]. *)
Definition startswith_sep (s : string) : bool :=
  match s with
  | String "/" _ => true
  | _ => false
  end.

(** [s.endswith('/')]. *)
Fixpoint endswith_sep (s : string) : bool :=
  match s with
  | EmptyString => false
  | String c EmptyString => Ascii.eqb c "/"
  | String _ s' => endswith_sep s'
  end.

(** [os.path.join(a, b)] of [posixpath]: an absolute [b] replaces [a]; a
    separator is put between the two unless [a] is empty or ends with one. *)
Definition join (a b : string) : string :=
  if startswith_sep b then b
  else if String.eqb a "" || endswith_sep a then a ++ b
  else a ++ "/" ++ b.

(** [s.split('/')]. *)
Fixpoint split_sep (s : string) : list string :=
  match s with
  | EmptyString => [""]
  | String c s' =>
      if Ascii.eqb c "/" then "" :: split_sep s'
      else match split_sep s' with
           | w :: ws => String c w :: ws
           | [] => [String c ""]
           end
  end.

(** [s.split('/')[-1]]. *)
Definition last_part (s : string) : string := last (split_sep s) "".

(** What reading a file gives: the content, or the exception raised, with
    its text. *)
Inductive outcome (A : Type) : Type :=
| Done (a : A)
| Failed (message : string).
Arguments Done {A} a.
Arguments Failed {A} message.

(** The file system as the loaders see it, for frames of type [F]:
    [os.path.exists], [pd.read_csv(path)] and
    [pd.read_excel(path, sheet_name=None, header=0)]. *)
Record FileSystem (F : Type) : Type := {
  path_exists : string -> bool;
  read_csv : string -> outcome F;
  read_excel : string -> outcome (dict F)
}.
Arguments path_exists {F} _ _.
Arguments read_csv {F} _ _.
Arguments read_excel {F} _ _.

End Os.

(* ================================================================== *)
(** * [load_all_data] (data_loader.py, lines 13-58) *)
(* ================================================================== *)

Module Loading.
Import DataLoader Os.

(** The loader with all its attributes; [tables] holds the two that the
    validator and the summariser read. *)
Record Loader : Type := {
  data_dir : string;
  tables : EthiopiaFIDataLoader;
  additional_guide : option (dict DataFrame)
}.

(** [EthiopiaFIDataLoader(data_dir)]. *)
Definition init (data_dir : string) : Loader :=
  {| data_dir := data_dir;
     tables := {| unified_data := None; reference_codes := None |};
     additional_guide := None |}.

(** The default of the parameter [data_dir]. *)
Definition default_data_dir : string := "data/raw".

(** A value of [data_dict]: a frame, or the sheets of the guide. *)
Inductive loaded : Type :=
| Frame (df : DataFrame)
| Sheets (sheets : dict DataFrame).

(** The state of a call: the loader, the lines printed so far, and
    [data_dict]. *)
Record Run : Type := {
  self : Loader;
  printed : list string;
  data_dict : dict loaded
}.

Definition print (line : string) (r : Run) : Run :=
  {| self := self r; printed := (printed r ++ [line])%list; data_dict := data_dict r |}.

Definition set_unified_data (df : DataFrame) (l : Loader) : Loader :=
  {| data_dir := data_dir l;
     tables := {| unified_data := Some df;
                  reference_codes := reference_codes (tables l) |};
     additional_guide := additional_guide l |}.

Definition set_reference_codes (df : DataFrame) (l : Loader) : Loader :=
  {| data_dir := data_dir l;
     tables := {| unified_data := unified_data (tables l);
                  reference_codes := Some df |};
     additional_guide := additional_guide l |}.

Definition set_additional_guide (sheets : dict DataFrame) (l : Loader) : Loader :=
  {| data_dir := data_dir l;
     tables := tables l;
     additional_guide := Some sheets |}.

Definition str_of_nat (n : nat) : string := str_of_N (N.of_nat n).

(** Lines 23-30.  An exception of [read_csv] is not caught: the call ends
    with the state reached. *)
Definition load_unified (fs : FileSystem DataFrame) (r : Run) : Run * option string :=
  let unified_path := join (data_dir (self r)) "ethiopia_fi_unified_data.csv" in
  if path_exists fs unified_path then
    match read_csv fs unified_path with
    | Done df =>
        let r := {| self := set_unified_data df (self r);
                    printed := printed r;
                    data_dict := dict_set "unified_data" (Frame df) (data_dict r) |} in
        (print ("✓ Loaded unified data: " ++ str_of_nat (len df) ++ " records") r,
         None)
    | Failed message => (r, Some message)
    end
  else (print ("✗ File not found: " ++ unified_path) r, None).

(** Lines 32-39. *)
Definition load_reference (fs : FileSystem DataFrame) (r : Run) : Run * option string :=
  let ref_path := join (data_dir (self r)) "reference_codes.csv" in
  if path_exists fs ref_path then
    match read_csv fs ref_path with
    | Done df =>
        let r := {| self := set_reference_codes df (self r);
                    printed := printed r;
                    data_dict := dict_set "reference_codes" (Frame df) (data_dict r) |} in
        (print ("✓ Loaded reference codes: " ++ str_of_nat (len df) ++ " codes") r,
         None)
    | Failed message => (r, Some message)
    end
  else (print ("✗ File not found: " ++ ref_path) r, None).

(** Lines 41-56.  Here the exception is caught and printed. *)
Definition load_guide (fs : FileSystem DataFrame) (r : Run) : Run :=
  let guide_path := join (data_dir (self r)) "Additional Data Points Guide.xlsx" in
  if path_exists fs guide_path then
    match read_excel fs guide_path with
    | Done sheets =>
        let r := {| self := set_additional_guide sheets (self r);
                    printed := printed r;
                    data_dict := dict_set "additional_guide" (Sheets sheets) (data_dict r) |} in
        print ("✓ Loaded additional guide with "
               ++ str_of_nat (dict_len sheets) ++ " sheets") r
    | Failed e => print ("✗ Error loading Excel file: " ++ e) r
    end
  else print ("✗ File not found: " ++ guide_path) r.

(** [load_all_data]: the loader after the call, the lines printed, and the
    dictionary returned or the exception raised. *)
Definition load_all_data (fs : FileSystem DataFrame) (l : Loader)
  : Loader * list string * outcome (dict loaded) :=
  let r := {| self := l; printed := []; data_dict := [] |} in
  match load_unified fs r with
  | (r, Some message) => (self r, printed r, Failed message)
  | (r, None) =>
      match load_reference fs r with
      | (r, Some message) => (self r, printed r, Failed message)
      | (r, None) =>
          let r := load_guide fs r in
          (self r, printed r, Done (data_dict r))
      end
  end.

End Loading.

(* ================================================================== *)
(** * Loading and display helpers of the dashboard (app.py) *)
(* ================================================================== *)

Module App.
Import Os Dashboard.

(** ** Frames of the dashboard *)

(** A cell: text, an integer, a float, or missing ([None], NaN). *)
Inductive value : Type :=
| Text (s : string)
| Int (z : Z)
| Num (x : float)
| Missing.

(** A frame: column labels, index labels and rows. *)
Record Frame : Type := {
  f_columns : list string;
  f_index : list value;
  f_rows : list (list value)
}.

(** [pd.DataFrame()]. *)
Definition new_frame : Frame :=
  {| f_columns := []; f_index := []; f_rows := [] |}.

(** [df.empty]: no column or no row. *)
Definition empty (df : Frame) : bool :=
  (List.length (f_columns df) =? 0)%nat || (List.length (f_index df) =? 0)%nat.

(** [RangeIndex(n)]. *)
Definition range_index (n : nat) : list value :=
  map (fun i => Int (Z.of_nat i)) (seq 0 n).

(** ** [get_file_path] (lines 75-91) *)

Definition possible_paths (filename : string) : list string :=
  [filename;
   join ".." filename;
   join "../data" (last_part filename);
   join "data" (last_part filename);
   join "." (last_part filename)].

Definition get_file_path (exists_ : string -> bool) (filename : string) : string :=
  match find exists_ (possible_paths filename) with
  | Some path => path
  | None => filename
  end.

(** ** [create_demo_data] (lines 129-186) *)

Definition create_demo_data : dict Frame :=
  let data : dict Frame := [] in
  let data :=
    dict_set "account_forecast"
      {| f_columns := ["year"; "forecast"; "trend_only"; "event_impact"; "events_applied"];
         f_index := range_index 3;
         f_rows :=
           [[Int 2025; Num 54.2; Num 53.5; Num 0.7; Text "5G Launch, EthioPay"];
            [Int 2026; Num 56.8; Num 55.9; Num 0.9; Text "None"];
            [Int 2027; Num 59.4; Num 58.3; Num 1.1; Text "None"]] |} data in
  let data :=
    dict_set "p2p_forecast"
      {| f_columns := ["year"; "forecast"; "trend_only"; "event_impact"; "events_applied"];
         f_index := range_index 3;
         f_rows :=
           [[Int 2025; Num 157.1e6; Num 150.0e6; Num 7.1e6; Text "Tax Exemption"];
            [Int 2026; Num 188.5e6; Num 180.0e6; Num 8.5e6; Text "None"];
            [Int 2027; Num 226.2e6; Num 216.0e6; Num 10.2e6; Text "None"]] |} data in
  let data :=
    dict_set "scenarios"
      {| f_columns := ["year"; "indicator"; "optimistic"; "baseline"; "pessimistic"];
         f_index := range_index 3;
         f_rows :=
           [[Int 2025; Text "ACC_OWNERSHIP"; Num 57.3; Num 54.2; Num 51.1];
            [Int 2026; Text "ACC_OWNERSHIP"; Num 60.1; Num 56.8; Num 53.5];
            [Int 2027; Text "ACC_OWNERSHIP"; Num 62.9; Num 59.4; Num 55.9]] |} data in
  let historical :=
      {| f_columns := ["record_id"; "record_type"; "indicator"; "indicator_code";
                       "observation_date"; "value_numeric"; "gender"; "location";
                       "source_name"; "notes"];
         f_index := range_index 5;
         f_rows :=
           [[Text "REC_0001"; Text "observation"; Text "Account Ownership";
             Text "ACC_OWNERSHIP"; Text "2014-12-31"; Num 22.0; Text "all";
             Text "national"; Text "Global Findex"; Text "Baseline year"];
            [Text "REC_0002"; Text "observation"; Text "Account Ownership";
             Text "ACC_OWNERSHIP"; Text "2017-12-31"; Num 35.0; Text "all";
             Text "national"; Text "Global Findex"; Text "Growth from 2014"];
            [Text "REC_0003"; Text "observation"; Text "Mobile Money Accounts";
             Text "ACC_MM_ACCOUNT"; Text "2021-12-31"; Num 4.7; Text "all";
             Text "national"; Text "Global Findex"; Text "Mobile money introduction"];
            [Text "EVT_0001"; Text "event"; Text "Telebirr Launch";
             Text "EVT_TELEBIRR"; Text "2021-05-17"; Missing; Text "all";
             Text "national"; Text "Ethio Telecom";
             Text "First major mobile money service"];
            [Text "EVT_0002"; Text "event"; Text "M-Pesa Launch";
             Text "EVT_MPESA"; Text "2023-08-01"; Missing; Text "all";
             Text "national"; Text "Safaricom";
             Text "Second mobile money entrant"]] |} in
  let data := dict_set "historical" historical data in
  let data := dict_set "enriched" historical data in
  let data :=
    dict_set "impact_matrix"
      {| f_columns := ["event_date"; "category"; "ACC_OWNERSHIP"; "ACC_MM_ACCOUNT";
                       "USG_P2P_COUNT"];
         f_index := [Text "EVT_TELEBIRR"; Text "EVT_MPESA"];
         f_rows :=
           [[Text "2021-05-17"; Text "product_launch"; Text "increase 0.5pp";
             Text "increase 2.0pp"; Text "increase 25%"];
            [Text "2023-08-01"; Text "market_entry"; Text "increase 0.3pp";
             Text "increase 1.5pp"; Text "increase 15%"]] |} data in
  data.

(** ** [load_data] (lines 94-127) *)

Definition files_to_load : list (string * string) :=
  [("account_forecast", "data/processed/account_ownership_forecast_2025_2027.csv");
   ("p2p_forecast", "data/processed/p2p_transaction_forecast_2025_2027.csv");
   ("scenarios", "data/processed/account_ownership_scenarios.csv");
   ("enriched", "data/processed/ethiopia_fi_enriched.csv");
   ("impact_matrix", "data/processed/event_indicator_association_matrix.csv");
   ("historical", "data/raw/ethiopia_fi_unified_data.csv")].

(** The message boxes put on the page. *)
Inductive message : Type :=
| Success (text : string)
| Warning (text : string)
| Error (text : string)
| Info (text : string).

(** [s[:n]]. *)
Definition take (n : nat) (s : string) : string := String.substring 0 n s.

(** The body of the loop for one file: the message shown and the frame
    stored.  Every exception of the body is caught. *)
Definition load_file (fs : FileSystem Frame) (filename : string) : message * Frame :=
  let filepath := get_file_path (path_exists fs) filename in
  if path_exists fs filepath then
    match read_csv fs filepath with
    | Done df => (Success ("✓ Loaded " ++ last_part filename), df)
    | Failed e =>
        (Error ("✗ Error loading " ++ filename ++ ": " ++ take 100 e), new_frame)
    end
  else (Warning ("⚠ File not found: " ++ filename), new_frame).

(** [load_data], without the cache of its decorator: the messages shown, in
    order, and the dictionary returned. *)
Definition load_data (fs : FileSystem Frame) : list message * dict Frame :=
  let (messages, data) :=
    fold_left
      (fun state file =>
         let (m, df) := load_file fs (snd file) in
         ((fst state ++ [m])%list, dict_set (fst file) df (snd state)))
      files_to_load ([], []) in
  if forallb (fun entry => empty (snd entry)) data
  then ((messages ++ [Info "📊 Using demo data for demonstration purposes"])%list,
        create_demo_data)
  else (messages, data).

(** ** Notes of an event (lines 342-347) *)


(** ** Growth of the forecast rows (lines 559-575) *)

Local Open Scope float_scope.

(** [last_historical]: the last value of [acc_series], else the [int] 0. *)
Definition last_historical (acc_series : list (Z * float)) : float :=
  match rev acc_series with
  | last :: _ => snd last
  | [] => 0
  end.

(** The entry of a forecast row, given by the text of its [year] and its
    [forecast], with the value it is compared with. *)
Definition forecast_row (previous : float) (row : string * float) : GrowthRow :=
  let growth := snd row - previous in
  {| Period := "Forecast " ++ fst row;
     Indicator := "Account Ownership";
     Growth_pp := growth;
     Annual_pp := growth |}.

(** The rows after the first: each is compared with the row before it. *)
Fixpoint forecast_from (previous : float) (rows : list (string * float))
  : list GrowthRow :=
  match rows with
  | [] => []
  | row :: rows' => forecast_row previous row :: forecast_from (snd row) rows'
  end.

(** [growth_data] at line 575: the entries of the historical rows, then
    those of the forecast rows (the frame has the default index). *)
Definition growth_analysis (acc_series : list (Z * float))
           (account_forecast : list (string * float)) : list GrowthRow :=
  (growth_data acc_series
   ++ forecast_from (last_historical acc_series) account_forecast)%list.

End App.

(* ================================================================== *)
(** * Further vocabulary and sample data *)
(* ================================================================== *)

Module Notions.
Import DataLoader Os Loading App.

(** Every character of [s] satisfies [p]. *)
Fixpoint all_chars (p : ascii -> bool) (s : string) : bool :=
  match s with
  | EmptyString => true
  | String c s' => p c && all_chars p s'
  end.

(** The issue entries of a report, from the required columns that are
    missing and the record types that are not registered. *)
Definition issue_entries (missing : list string) (offending : list cell)
  : dict report_value :=
  (match missing with
   | [] => []
   | _ :: _ => [("missing_columns", VColumns missing)]
   end
   ++ match offending with
      | [] => []
      | _ :: _ => [("invalid_record_types", VValues (unique cell_eqb offending))]
      end)%list.

(** The first of the grouping columns that the frame lacks. *)
Definition first_missing (df : DataFrame) : option string :=
  find (fun name => negb (str_in name (columns df))) Samples.grouping_columns.

(** A frame with the column [record_id] only. *)
Definition ids_only : DataFrame :=
  {| columns := ["record_id"]; rows := [[Some "REC_0001"]] |}.

(** Two records, the second of a type that is not registered. *)
Definition odd_type : DataFrame :=
  {| columns := required_cols;
     rows := [Samples.record "REC_0001" "observation";
              Samples.record "REC_0002" "estimate"] |}.

(** The three paths the loader reads. *)
Definition unified_path (l : Loader) : string :=
  join (data_dir l) "ethiopia_fi_unified_data.csv".

Definition reference_path (l : Loader) : string :=
  join (data_dir l) "reference_codes.csv".

Definition guide_path (l : Loader) : string :=
  join (data_dir l) "Additional Data Points Guide.xlsx".

(** What is found at a path when it is read as CSV: nothing, or what
    [read_csv] gives. *)
Definition csv_at {F : Type} (fs : FileSystem F) (path : string)
  : option (outcome F) :=
  if path_exists fs path then Some (read_csv fs path) else None.

(** The same for a workbook. *)
Definition excel_at {F : Type} (fs : FileSystem F) (path : string)
  : option (outcome (dict F)) :=
  if path_exists fs path then Some (read_excel fs path) else None.

(** The frame the dashboard gets for a file: the frame read at the path
    chosen by [get_file_path], or the frame without rows and columns when
    nothing is there or it cannot be read. *)
Definition file_frame (fs : FileSystem Frame) (filename : string) : Frame :=
  match csv_at fs (get_file_path (path_exists fs) filename) with
  | Some (Done df) => df
  | _ => new_frame
  end.

(** A forecast table with a header and no row. *)
Definition header_only : Frame :=
  {| f_columns := ["year"; "forecast"]; f_index := []; f_rows := [] |}.

(** A forecast table with one row. *)
Definition one_forecast : Frame :=
  {| f_columns := ["year"; "forecast"]; f_index := [Int 0];
     f_rows := [[Int 2025; Num 54.2]] |}.

(** A file system that holds the given CSV files and nothing else. *)
Definition csv_files {F : Type} (files : list (string * outcome F)) : FileSystem F :=
  {| path_exists := fun path =>
       match dict_get path files with Some _ => true | None => false end;
     read_csv := fun path =>
       match dict_get path files with
       | Some content => content
       | None => Failed "No such file or directory"
       end;
     read_excel := fun _ => Failed "No such file or directory" |}.

End Notions.

(* ================================================================== *)
(** * Properties of the identifier generator *)
(* ================================================================== *)

Module IdGeneratorFacts.
Import IdGenerator.

Example re_match_rec : re_match "REC_0001" = Some ("REC", "0001").
Proof. reflexivity. Qed.

Example re_match_foo : re_match "FOO" = None.
Proof. reflexivity. Qed.

Example re_match_lower : re_match "rec_0001" = None.
Proof. reflexivity. Qed.

Example re_match_trailing : re_match "EVT_12ab" = Some ("EVT", "12").
Proof. reflexivity. Qed.

Example fmt_04d_3 : fmt_04d 3 = "0003".
Proof. reflexivity. Qed.

Example fmt_04d_wide : fmt_04d 12345 = "12345".
Proof. reflexivity. Qed.

Example int_of_digits_0001 : int_of_digits "0001" = 1%N.
Proof. reflexivity. Qed.

Lemma str_in_true (x : string) (l : list string) :
  str_in x l = true <-> In x l.
Proof.
  unfold str_in. destruct (in_dec string_dec x l); split; intros H;
    try reflexivity; try assumption; try discriminate; contradiction.
Qed.

Lemma str_in_false (x : string) (l : list string) :
  str_in x l = false <-> ~ In x l.
Proof.
  unfold str_in. destruct (in_dec string_dec x l); split; intros H;
    try reflexivity; try assumption; try discriminate; contradiction.
Qed.







(** What the loop returns is a candidate that is free, and every
    candidate before it is taken. *)
Lemma while_taken_spec (render : N -> string) (ex : list string) :
  forall fuel num r,
    while_taken fuel render ex num = Some r ->
    (num <= r)%N /\ ~ In (render r) ex /\
    forall m, (num <= m < r)%N -> In (render m) ex.
Proof.
  induction fuel as [|fuel IH]; intros num r H; [discriminate|].
  simpl in H. destruct (str_in (render num) ex) eqn:E.
  - apply IH in H as (Hle & Hfree & Hbefore).
    split; [lia|]. split; [assumption|].
    intros m Hm. destruct (N.eq_dec m num) as [->|Hne].
    + now apply str_in_true.
    + apply Hbefore. lia.
  - injection H as <-. split; [lia|]. split.
    + now apply str_in_false.
    + intros m Hm. lia.
Qed.


(** Without the pattern the loop tests the very string that is returned,
    so the identifier returned is not a member of [existing_ids]. *)
Lemma generate_record_id_suffixed_fresh (base_id : string) (ex : list string)
      (r : string) :
  re_match base_id = None ->
  generate_record_id base_id ex = Some r ->
  ~ In r ex.
Proof.
  unfold generate_record_id. intros Hre H.
  destruct (str_in base_id ex) eqn:E; cbn [negb] in H.
  - rewrite Hre in H.
    destruct (while_taken (S (List.length ex)) (suffixed base_id) ex 1)
      as [i|] eqn:W; [|discriminate].
    cbn [option_map] in H. injection H as <-.
    now apply while_taken_spec in W.
  - injection H as <-. now apply str_in_false.
Qed.

(** C1 (code defect).  On the specification's own example the generator
    does not return ["REC_0003"]: the loop tests the unpadded rendering
    ["REC_1"], which is not in the list, so the loop is left at once and the
    padded rendering ["REC_0001"] of the same number is returned, an
    identifier that is a member of [existing_ids]. *)
Theorem generate_record_id_returns_taken_id :
  generate_record_id "REC_0001" ["REC_0001"; "REC_0002"] = Some "REC_0001"
  /\ In "REC_0001" ["REC_0001"; "REC_0002"]
  /\ generate_record_id "REC_0001" ["REC_0001"; "REC_0002"] <> Some "REC_0003".
Proof.
  split; [reflexivity|]. split; [now left|]. discriminate.
Qed.

(** The branch without the pattern has one rendering for the test and the
    result, and there the result is never a member of [existing_ids]. *)
Example generate_record_id_foo :
  generate_record_id "FOO" ["FOO"] = Some "FOO_1".
Proof. reflexivity. Qed.

End IdGeneratorFacts.

(* ================================================================== *)
(** * Properties of the validator and the summariser *)
(* ================================================================== *)

Module DataLoaderFacts.
Import DataLoader Samples.

(** ** Frames and dictionaries *)

Lemma index_of_some (name : string) (cols : list string) :
  In name cols -> exists i, index_of name cols = Some i.
Proof.
  induction cols as [|c cols IH]; simpl; intros H; [contradiction|].
  destruct (String.eqb name c) eqn:E; [now exists O|].
  destruct H as [H|H].
  - subst c. rewrite String.eqb_refl in E. discriminate.
  - destruct (IH H) as [i Hi]. rewrite Hi. now exists (S i).
Qed.

Lemma index_of_none (name : string) (cols : list string) :
  ~ In name cols -> index_of name cols = None.
Proof.
  induction cols as [|c cols IH]; simpl; intros H; [reflexivity|].
  destruct (String.eqb name c) eqn:E.
  - apply String.eqb_eq in E. subst c. exfalso. apply H. now left.
  - rewrite IH; [reflexivity|]. intros Hin. apply H. now right.
Qed.

(** A column that the frame has is returned. *)
Lemma getitem_present (df : DataFrame) (name : string) :
  In name (columns df) -> exists col, getitem df name = Ok col.
Proof.
  intros H. unfold getitem.
  destruct (index_of_some name (columns df) H) as [i Hi].
  rewrite Hi. eexists; reflexivity.
Qed.

(** A column that the frame lacks raises [KeyError]. *)
Lemma getitem_absent (df : DataFrame) (name : string) :
  ~ In name (columns df) -> getitem df name = Raise (KeyError name).
Proof.
  intros H. unfold getitem. now rewrite (index_of_none name (columns df) H).
Qed.

Lemma cell_eqb_eq (a b : cell) : cell_eqb a b = true <-> a = b.
Proof.
  destruct a as [x|], b as [y|]; simpl; split; intros H;
    try discriminate; try reflexivity.
  - apply String.eqb_eq in H. now subst.
  - injection H as ->. apply String.eqb_refl.
Qed.

(** ** [unique] *)

Section UniqueFacts.
Context {A : Type} (eqb : A -> A -> bool).
Hypothesis eqb_eq : forall x y, eqb x y = true <-> x = y.

Lemma existsb_eqb (x : A) (l : list A) : existsb (eqb x) l = true <-> In x l.
Proof.
  rewrite existsb_exists. split.
  - intros (y & Hy & E). apply eqb_eq in E. now subst.
  - intros H. exists x. split; [assumption|]. now apply eqb_eq.
Qed.

Lemma unique_from_in (l seen : list A) (x : A) :
  In x (unique_from eqb seen l) <-> In x l /\ ~ In x seen.
Proof.
  revert seen. induction l as [|y l IH]; intros seen; simpl.
  - tauto.
  - destruct (existsb (eqb y) seen) eqn:E.
    + apply existsb_eqb in E. rewrite IH. split.
      * intros [H1 H2]. tauto.
      * intros [[H1|H1] H2]; [subst; contradiction | tauto].
    + assert (Hy : ~ In y seen).
      { intros H. apply existsb_eqb in H. congruence. }
      simpl. rewrite IH. simpl. split.
      * intros [H|[H1 H2]]; [subst; tauto | tauto].
      * intros [[H|H] H2]; [now left|].
        destruct (eqb y x) eqn:Eyx.
        -- apply eqb_eq in Eyx. now left.
        -- right. split; [assumption|]. intros [H3|H3]; [|contradiction].
           subst. assert (eqb x x = true) by now apply eqb_eq. congruence.
Qed.

Lemma unique_from_nodup (l seen : list A) : NoDup (unique_from eqb seen l).
Proof.
  revert seen. induction l as [|y l IH]; intros seen; simpl.
  - constructor.
  - destruct (existsb (eqb y) seen); [apply IH|].
    constructor; [|apply IH].
    rewrite unique_from_in. simpl. tauto.
Qed.

Lemma unique_in (l : list A) (x : A) : In x (unique eqb l) <-> In x l.
Proof. unfold unique. rewrite unique_from_in. simpl. tauto. Qed.

Lemma unique_nodup (l : list A) : NoDup (unique eqb l).
Proof. apply unique_from_nodup. Qed.

End UniqueFacts.

(** ** [value_counts] *)

Lemma dropna_in (series : list cell) (v : string) :
  In v (dropna series) <-> In (Some v) series.
Proof.
  induction series as [|[x|] series IH]; simpl.
  - tauto.
  - rewrite IH. split; intros [H|H]; try (now right).
    + left. now subst.
    + left. now injection H.
  - rewrite IH. split; [now right|]. intros [H|H]; [discriminate|assumption].
Qed.

Lemma dropna_nil (series : list cell) :
  (forall c, In c series -> c = None) -> dropna series = [].
Proof.
  induction series as [|[x|] series IH]; simpl; intros H.
  - reflexivity.
  - specialize (H (Some x) (or_introl eq_refl)). discriminate.
  - apply IH. intros c Hc. apply H. now right.
Qed.

Lemma insert_desc_perm (x : string * nat) (l : list (string * nat)) :
  Permutation (insert_desc x l) (x :: l).
Proof.
  induction l as [|y l IH]; simpl.
  - apply Permutation_refl.
  - destruct (snd x <=? snd y)%nat.
    + apply Permutation_trans with (y :: x :: l).
      * now apply perm_skip.
      * apply perm_swap.
    + apply Permutation_refl.
Qed.

Lemma insert_desc_sorted (x : string * nat) (l : list (string * nat)) :
  StronglySorted (fun a b => (snd b <= snd a)%nat) l ->
  StronglySorted (fun a b => (snd b <= snd a)%nat) (insert_desc x l).
Proof.
  induction l as [|y l IH]; simpl; intros H.
  - constructor; constructor.
  - inversion H as [|? ? Hl Hy]; subst.
    destruct (snd x <=? snd y)%nat eqn:E.
    + apply Nat.leb_le in E. constructor; [now apply IH|].
      apply Forall_forall. intros z Hz.
      apply (Permutation_in _ (insert_desc_perm x l)) in Hz.
      destruct Hz as [<-|Hz]; [assumption|].
      rewrite Forall_forall in Hy. now apply Hy.
    + apply Nat.leb_gt in E. constructor; [assumption|].
      constructor; [lia|].
      rewrite Forall_forall in Hy |- *. intros z Hz.
      specialize (Hy z Hz). lia.
Qed.

Lemma sort_from_perm (l acc : list (string * nat)) :
  Permutation (fold_left (fun acc x => insert_desc x acc) l acc) (l ++ acc)%list.
Proof.
  revert acc. induction l as [|x l IH]; intros acc; simpl.
  - apply Permutation_refl.
  - eapply Permutation_trans; [apply IH|].
    eapply Permutation_trans.
    + apply Permutation_app_head. apply insert_desc_perm.
    + apply Permutation_sym. apply Permutation_middle.
Qed.

Lemma sort_from_sorted (l acc : list (string * nat)) :
  StronglySorted (fun a b => (snd b <= snd a)%nat) acc ->
  StronglySorted (fun a b => (snd b <= snd a)%nat)
                 (fold_left (fun acc x => insert_desc x acc) l acc).
Proof.
  revert acc. induction l as [|x l IH]; intros acc H; simpl.
  - assumption.
  - apply IH. now apply insert_desc_sorted.
Qed.

Lemma sort_desc_perm (l : list (string * nat)) : Permutation (sort_desc l) l.
Proof.
  unfold sort_desc. eapply Permutation_trans; [apply sort_from_perm|].
  rewrite app_nil_r. apply Permutation_refl.
Qed.

(** [value_counts] computes the frequency table of the series. *)
Lemma value_counts_frequency_table (series : list cell) :
  frequency_table series (value_counts series).
Proof.
  unfold frequency_table, value_counts.
  set (u := unique String.eqb (dropna series)).
  set (tab := map (fun v => (v, occurrences v series)) u).
  pose proof (sort_desc_perm tab) as P.
  split; [|split].
  - intros v n. split.
    + intros H. apply (Permutation_in _ P) in H.
      apply in_map_iff in H as (w & E & Hw). injection E as -> <-.
      split; [|reflexivity].
      apply dropna_in.
      exact (proj1 (unique_in String.eqb String.eqb_eq _ _) Hw).
    + intros [H ->]. apply (Permutation_in _ (Permutation_sym P)).
      apply in_map_iff. exists v. split; [reflexivity|].
      apply (proj2 (unique_in String.eqb String.eqb_eq _ _)). now apply dropna_in.
  - apply (Permutation_NoDup (Permutation_sym (Permutation_map fst P))).
    unfold tab. rewrite map_map. simpl. rewrite map_id.
    apply (unique_nodup String.eqb String.eqb_eq).
  - apply sort_from_sorted. constructor.
Qed.

(** A series without a value has the empty frequency table. *)
Lemma value_counts_nil (series : list cell) :
  (forall c, In c series -> c = None) -> value_counts series = [].
Proof.
  intros H. unfold value_counts. now rewrite (dropna_nil series H).
Qed.

(** ** The validator *)

Ltac step_validator H :=
  match type of H with
  | context [Py.bind (Py.bind ?x _) _] => destruct x eqn:?; simpl in H
  | context [match ?x with _ => _ end] => destruct x eqn:?; simpl in H
  | context [if ?x then _ else _] => destruct x eqn:?; simpl in H
  | context [Py.bind ?x _] => destruct x eqn:?; simpl in H
  end.

(** The verdict written by the validator, read off its report: [PASS]
    exactly when one of the two issue categories is present and the other is
    not. *)
Lemma data_quality_pass_iff (self : EthiopiaFIDataLoader)
      (r : dict report_value) (s : ValidationSummary) :
  validate_data self = Ok r ->
  dict_get "summary" r = Some (VSummary s) ->
  (data_quality s = "PASS" <->
   (dict_get "missing_columns" r <> None /\ dict_get "invalid_record_types" r = None)
   \/ (dict_get "missing_columns" r = None /\ dict_get "invalid_record_types" r <> None)).
Proof.
  intros H Hs. unfold validate_data in H.
  repeat step_validator H; try discriminate;
    injection H as <-; simpl in Hs; try discriminate;
    injection Hs as <-; simpl;
    (split;
     [ intros E;
       first [ discriminate E
             | left; split; [discriminate | reflexivity]
             | right; split; [reflexivity | discriminate] ]
     | intros [[A B]|[A B]]; first [reflexivity | congruence] ]).
Qed.

(** C2 (code defect).  The verdict is computed from [len(validation_results)
    == 1] before the summary is stored, so the length counts the issue
    categories: a frame with every required column and only registered record
    types gets [NEEDS REVIEW], and a frame that lacks the column [category]
    gets [PASS]. *)
Theorem validate_data_verdict_counts_issue_categories :
  validate_data (loaded clean reference)
  = Ok [("summary",
         VSummary {| total_records := 2;
                     valid_record_types := [Some "observation"; Some "event"];
                     data_quality := "NEEDS REVIEW" |})]
  /\ validate_data (loaded no_category reference)
     = Ok [("missing_columns", VColumns ["category"]);
           ("summary",
            VSummary {| total_records := 2;
                        valid_record_types := [Some "observation"; Some "event"];
                        data_quality := "PASS" |})].
Proof. split; reflexivity. Qed.

(** C3 (as stated, refuted).  A frame in which two records share the
    identifier [REC_0001] gets a report whose only entry is the summary:
    there is no category [duplicate_ids]. *)
Lemma validate_data_duplicated_ids_unreported :
  exists r,
    validate_data (loaded duplicated reference) = Ok r
    /\ dict_keys r = ["summary"]
    /\ dict_get "duplicate_ids" r = None.
Proof. eexists. split; [reflexivity|]. split; reflexivity. Qed.

(** C3 (amended).  The validator makes two checks, required columns and
    registered record types, and no check of uniqueness: whatever the frame,
    also one with repeated identifiers, the report has no entry
    [duplicate_ids] and no key besides [missing_columns],
    [invalid_record_types] and [summary] (or [error]). *)
Theorem validate_data_report_keys (self : EthiopiaFIDataLoader)
        (r : dict report_value) :
  validate_data self = Ok r ->
  dict_get "duplicate_ids" r = None
  /\ incl (dict_keys r)
          ["missing_columns"; "invalid_record_types"; "summary"; "error"].
Proof.
  intros H. unfold validate_data in H.
  repeat step_validator H; try discriminate;
    injection H as <-; (split; [reflexivity|]);
    intros k Hk; simpl in Hk |- *; tauto.
Qed.

Lemma validate_data_report_keys_witness :
  validate_data (loaded duplicated reference)
  = Ok [("summary",
         VSummary {| total_records := 3;
                     valid_record_types := [Some "observation"; Some "event"];
                     data_quality := "NEEDS REVIEW" |})]
  /\ dict_get "duplicate_ids"
       [("summary",
         VSummary {| total_records := 3;
                     valid_record_types := [Some "observation"; Some "event"];
                     data_quality := "NEEDS REVIEW" |})] = None.
Proof.
  split; [reflexivity|].
  exact (proj1 (validate_data_report_keys (loaded duplicated reference) _ eq_refl)).
Defined.

(** ** The summariser *)

(** On a frame that has the four grouping columns the summariser returns
    the four tables, in this order. *)
Lemma get_data_summary_loaded (self : EthiopiaFIDataLoader) (df : DataFrame) :
  unified_data self = Some df ->
  (forall name, In name grouping_columns -> In name (columns df)) ->
  exists rt p s c,
    getitem df "record_type" = Ok rt /\ getitem df "pillar" = Ok p
    /\ getitem df "source_type" = Ok s /\ getitem df "confidence" = Ok c
    /\ get_data_summary self
       = Ok [("record_types",
              percentage_table "record_type" (value_counts rt) (len df));
             ("pillars", count_table "pillar" (value_counts p));
             ("sources", count_table "source_type" (value_counts s));
             ("confidence", count_table "confidence" (value_counts c))].
Proof.
  intros Hdf Hcols. unfold get_data_summary. rewrite Hdf.
  destruct (getitem_present df "record_type") as [rt Hrt];
    [apply Hcols; simpl; tauto|].
  destruct (getitem_present df "pillar") as [p Hp];
    [apply Hcols; simpl; tauto|].
  destruct (getitem_present df "source_type") as [s Hs];
    [apply Hcols; simpl; tauto|].
  destruct (getitem_present df "confidence") as [c Hc];
    [apply Hcols; simpl; tauto|].
  exists rt, p, s, c. rewrite Hrt, Hp, Hs, Hc. simpl.
  repeat split; reflexivity.
Qed.

(** On a frame that lacks one of the four grouping columns the summariser
    raises [KeyError]. *)
Lemma get_data_summary_raises (self : EthiopiaFIDataLoader) (df : DataFrame)
      (name : string) :
  unified_data self = Some df ->
  In name grouping_columns -> ~ In name (columns df) ->
  exists key, get_data_summary self = Raise (KeyError key).
Proof.
  intros Hdf Hname Habs. unfold get_data_summary. rewrite Hdf.
  destruct (getitem df "record_type") eqn:E1; simpl; [|destruct e; eauto].
  destruct (getitem df "pillar") eqn:E2; simpl; [|destruct e; eauto].
  destruct (getitem df "source_type") eqn:E3; simpl; [|destruct e; eauto].
  destruct (getitem df "confidence") eqn:E4; simpl; [|destruct e; eauto].
  exfalso. simpl in Hname.
  destruct Hname as [<-|[<-|[<-|[<-|[]]]]];
    rewrite (getitem_absent df _ Habs) in *; discriminate.
Qed.

(** C5 (as stated, refuted).  In a frame without the column [pillar] the
    field is absent from every record, and the summariser raises [KeyError]
    instead of returning an empty table. *)
Lemma get_data_summary_missing_column_raises :
  getitem no_pillar "pillar" = Raise (KeyError "pillar")
  /\ get_data_summary (loaded no_pillar reference) = Raise (KeyError "pillar").
Proof. split; reflexivity. Qed.

(** C5 (amended).  On a frame that has the four grouping columns, a
    grouping column that holds no value in any record gets an empty
    frequency table, and the summariser does not raise. *)
Theorem get_data_summary_empty_table (self : EthiopiaFIDataLoader)
        (df : DataFrame) (key name : string) (series : list cell) :
  unified_data self = Some df ->
  (forall n, In n grouping_columns -> In n (columns df)) ->
  In (key, name) grouping ->
  getitem df name = Ok series ->
  (forall c, In c series -> c = None) ->
  exists summary t,
    get_data_summary self = Ok summary
    /\ dict_get key summary = Some t
    /\ t_rows t = [].
Proof.
  intros Hdf Hcols Hkey Hseries Hnone.
  destruct (get_data_summary_loaded self df Hdf Hcols)
    as (rt & p & s & c & Hrt & Hp & Hs & Hc & Hsum).
  rewrite Hsum. eexists. simpl in Hkey.
  destruct Hkey as [E|[E|[E|[E|[]]]]]; injection E as <- <-;
    eexists; (split; [reflexivity|]); (split; [reflexivity|]); simpl;
    match goal with
    | H : getitem df ?n = Ok ?x |- context [value_counts ?x] =>
        rewrite H in Hseries; injection Hseries as ->
    end;
    now rewrite (value_counts_nil series Hnone).
Qed.

Lemma get_data_summary_empty_table_witness :
  exists summary t,
    get_data_summary (loaded ten_records reference) = Ok summary
    /\ dict_get "sources" summary = Some t
    /\ t_rows t = [].
Proof.
  apply (get_data_summary_empty_table
           (loaded ten_records reference) ten_records "sources" "source_type"
           (repeat None 10)).
  - reflexivity.
  - intros n Hn. simpl in Hn |- *. tauto.
  - simpl. tauto.
  - reflexivity.
  - intros c Hc. simpl in Hc.
    repeat (destruct Hc as [<-|Hc]; [reflexivity|]). contradiction.
Defined.

(** C6 (as stated, refuted).  For eight observations and two events the
    table of the pillars has the columns [pillar] and [count] only: it maps
    a value to its count, not to a pair of count and percentage. *)
Lemma get_data_summary_pillars_without_percentage :
  exists summary t,
    get_data_summary (loaded ten_records reference) = Ok summary
    /\ dict_get "pillars" summary = Some t
    /\ t_columns t = ["pillar"; "count"]
    /\ t_rows t = [[TStr "access"; TInt 10]]
    /\ ~ reports_percentage t.
Proof.
  eexists. eexists. split; [reflexivity|]. split; [reflexivity|].
  split; [reflexivity|]. split; [reflexivity|].
  unfold reports_percentage. simpl.
  intros [H|[H|[]]]; discriminate.
Qed.

(** C6 (amended).  On a frame that has the four grouping columns the
    summariser returns four tables, each built from the frequency table of
    its column (every observed value once, with its count, the largest count
    first): the table of [record_type] gives value, count and the percentage
    of the number of records rounded to one decimal; the tables of [pillar],
    [source_type] and [confidence] give value and count.  For eight
    observations and two events the table of [record_type] reads
    observation 8 80.0, event 2 20.0. *)
Theorem get_data_summary_frequency_tables :
  (forall (self : EthiopiaFIDataLoader) (df : DataFrame),
      unified_data self = Some df ->
      (forall n, In n grouping_columns -> In n (columns df)) ->
      exists rt p s c crt cp cs cc,
        getitem df "record_type" = Ok rt /\ frequency_table rt crt
        /\ getitem df "pillar" = Ok p /\ frequency_table p cp
        /\ getitem df "source_type" = Ok s /\ frequency_table s cs
        /\ getitem df "confidence" = Ok c /\ frequency_table c cc
        /\ get_data_summary self
           = Ok [("record_types",
                  {| t_columns := ["record_type"; "count"; "percentage"];
                     t_rows :=
                       map (fun e => [TStr (fst e); TInt (snd e);
                                      TFloat (percentage (snd e) (len df))])
                           crt |});
                 ("pillars",
                  {| t_columns := ["pillar"; "count"];
                     t_rows := map (fun e => [TStr (fst e); TInt (snd e)]) cp |});
                 ("sources",
                  {| t_columns := ["source_type"; "count"];
                     t_rows := map (fun e => [TStr (fst e); TInt (snd e)]) cs |});
                 ("confidence",
                  {| t_columns := ["confidence"; "count"];
                     t_rows := map (fun e => [TStr (fst e); TInt (snd e)]) cc |})])
  /\ (exists summary,
         get_data_summary (loaded ten_records reference) = Ok summary
         /\ dict_get "record_types" summary
            = Some {| t_columns := ["record_type"; "count"; "percentage"];
                      t_rows := [[TStr "observation"; TInt 8; TFloat 80];
                                 [TStr "event"; TInt 2; TFloat 20]] |}).
Proof.
  split.
  - intros self df Hdf Hcols.
    destruct (get_data_summary_loaded self df Hdf Hcols)
      as (rt & p & s & c & Hrt & Hp & Hs & Hc & Hsum).
    exists rt, p, s, c.
    exists (value_counts rt), (value_counts p), (value_counts s), (value_counts c).
    repeat (split; [first [assumption | apply value_counts_frequency_table]|]).
    exact Hsum.
  - eexists. split; reflexivity.
Qed.

Lemma get_data_summary_frequency_tables_witness :
  exists rt p s c crt cp cs cc,
    getitem ten_records "record_type" = Ok rt /\ frequency_table rt crt
    /\ getitem ten_records "pillar" = Ok p /\ frequency_table p cp
    /\ getitem ten_records "source_type" = Ok s /\ frequency_table s cs
    /\ getitem ten_records "confidence" = Ok c /\ frequency_table c cc
    /\ get_data_summary (loaded ten_records reference)
       = Ok [("record_types",
              {| t_columns := ["record_type"; "count"; "percentage"];
                 t_rows :=
                   map (fun e => [TStr (fst e); TInt (snd e);
                                  TFloat (percentage (snd e) (len ten_records))])
                       crt |});
             ("pillars",
              {| t_columns := ["pillar"; "count"];
                 t_rows := map (fun e => [TStr (fst e); TInt (snd e)]) cp |});
             ("sources",
              {| t_columns := ["source_type"; "count"];
                 t_rows := map (fun e => [TStr (fst e); TInt (snd e)]) cs |});
             ("confidence",
              {| t_columns := ["confidence"; "count"];
                 t_rows := map (fun e => [TStr (fst e); TInt (snd e)]) cc |})].
Proof.
  apply (proj1 get_data_summary_frequency_tables
               (loaded ten_records reference) ten_records).
  - reflexivity.
  - intros n Hn. simpl in Hn |- *. tauto.
Defined.

(** ** Data that was not loaded *)

(** C10 (as stated, refuted).  With the unified data loaded and the
    reference codes missing, the summariser does not return the empty
    dictionary: it returns the four tables. *)
Lemma get_data_summary_ignores_reference_codes :
  reference_codes (without_reference ten_records) = None
  /\ exists summary,
       get_data_summary (without_reference ten_records) = Ok summary
       /\ dict_keys summary = ["record_types"; "pillars"; "sources"; "confidence"].
Proof. split; [reflexivity|]. eexists. split; reflexivity. Qed.

(** C10 (amended).  When either table is not loaded the validator returns
    exactly [{"error": "Data not loaded"}], whatever the other table holds;
    when the unified data is not loaded the summariser returns the empty
    dictionary.  The summariser does not read the reference codes. *)
Theorem not_loaded_results (self : EthiopiaFIDataLoader) :
  (unified_data self = None \/ reference_codes self = None ->
   validate_data self = Ok [("error", VMessage "Data not loaded")])
  /\ (unified_data self = None -> get_data_summary self = Ok [])
  /\ (forall reference',
         get_data_summary
           {| unified_data := unified_data self; reference_codes := reference' |}
         = get_data_summary self).
Proof.
  split; [|split].
  - unfold validate_data. intros [H|H]; rewrite H; [reflexivity|].
    now destruct (unified_data self).
  - unfold get_data_summary. now intros ->.
  - intros reference'. reflexivity.
Qed.

Lemma not_loaded_results_witness :
  validate_data (without_reference clean) = Ok [("error", VMessage "Data not loaded")]
  /\ validate_data not_loaded = Ok [("error", VMessage "Data not loaded")]
  /\ get_data_summary not_loaded = Ok [].
Proof.
  split; [|split].
  - apply (proj1 (not_loaded_results (without_reference clean))). now right.
  - apply (proj1 (not_loaded_results not_loaded)). now left.
  - apply (proj1 (proj2 (not_loaded_results not_loaded))). reflexivity.
Defined.

End DataLoaderFacts.

(* ================================================================== *)
(** * Properties of the derived metrics *)
(* ================================================================== *)

Module DashboardFacts.
Import Dashboard Samples.

Local Open Scope float_scope.

(** ** Division by zero in binary64 *)

(** A float that compares equal to zero is one of the two zeros. *)
Lemma eqb_zero (a : float) :
  (a =? 0) = true -> exists s, Prim2SF a = S754_zero s.
Proof.
  rewrite FloatAxioms.eqb_spec.
  destruct (Prim2SF a) as [s|s| |s m e]; try (now exists s);
    cbn; try discriminate; destruct s; discriminate.
Qed.

Lemma unbounded_not_finite (x : float) :
  unbounded (Prim2SF x) = true -> is_finite x = false.
Proof.
  unfold is_finite, is_nan, is_infinity.
  rewrite !FloatAxioms.eqb_spec, abs_spec.
  destruct (Prim2SF x) as [s|s| |s m e]; try discriminate; intros _.
  - cbn. now destruct s.
  - reflexivity.
Qed.

(** Whatever is divided by a zero, the quotient is an infinity or NaN. *)
Lemma div_zero_unbounded (x a : float) :
  (a =? 0) = true -> unbounded (Prim2SF (x / a)) = true.
Proof.
  intros H. destruct (eqb_zero a H) as [s Hs].
  rewrite div_spec, Hs.
  destruct (Prim2SF x) as [sx|sx| |sx mx ex]; reflexivity.
Qed.

(** ** Growth percentage *)

(** C4 (as stated, refuted).  With [a == 0] the computation does not fail:
    it returns infinity, in the shared expression and in the overview's
    metric. *)
Lemma growth_pct_zero_is_infinity :
  growth_pct 0 157.1e6 = infinity
  /\ delta_pct [0; 157.1e6] = Some infinity
  /\ is_nan (growth_pct 0 0) = true.
Proof. repeat split; reflexivity. Qed.

(** C4 (amended).  For every pair of floats the growth percentage is
    [((b / a) - 1) * 100] in binary64 arithmetic and no error is raised:
    when [a == 0] the result is an infinity or NaN.  For [a = 150.0e6] and
    [b = 157.1e6] the result lies between 4.733 and 4.734, also when both
    values are first scaled to millions as the dashboard does. *)
Theorem growth_pct_total :
  (forall a b, growth_pct a b = ((b / a) - 1) * 100)
  /\ (forall a b, (a =? 0) = true -> is_finite (growth_pct a b) = false)
  /\ (4.733 <? growth_pct 150.0e6 157.1e6) = true
  /\ (growth_pct 150.0e6 157.1e6 <? 4.734) = true
  /\ (exists g, delta_pct [150.0e6; 157.1e6] = Some g
                /\ (4.733 <? g) = true /\ (g <? 4.734) = true).
Proof.
  split; [reflexivity|]. split.
  - intros a b H. apply unbounded_not_finite. unfold growth_pct.
    pose proof (div_zero_unbounded b a H) as U.
    rewrite mul_spec, sub_spec.
    destruct (Prim2SF (b / a)) as [s|s| |s m e]; try discriminate U.
    + now destruct s.
    + reflexivity.
  - split; [reflexivity|]. split; [reflexivity|].
    eexists. split; [reflexivity|]. split; reflexivity.
Qed.

Lemma growth_pct_total_witness :
  (0 =? 0) = true /\ is_finite (growth_pct 0 157.1e6) = false.
Proof.
  split; [reflexivity|].
  apply (proj1 (proj2 growth_pct_total) 0 157.1e6). reflexivity.
Defined.

(** ** Growth by period *)

Lemma growth_from_consecutive (prev : Z * float) (rest : list (Z * float)) :
  growth_from prev rest
  = map (fun p => growth_row (fst p) (snd p)) (combine (prev :: rest) rest).
Proof.
  revert prev. induction rest as [|cur rest IH]; intros prev; simpl.
  - reflexivity.
  - f_equal. apply IH.
Qed.

(** C8 (as stated, refuted).  Two rows of the same year do not make the
    computation fail: the annual change is the quotient by zero, infinity. *)
Lemma growth_data_same_year_is_infinity :
  growth_data [(2014%Z, 22); (2014%Z, 35)]
  = [ {| Period := "2014-2014"; Indicator := "Account Ownership";
         Growth_pp := 13; Annual_pp := infinity |} ].
Proof. reflexivity. Qed.

(** C8 (amended).  For every list of (year, value) rows the computation
    returns one entry for each consecutive pair, with the absolute change
    [value2 - value1] and the annual change
    [absolute_change / (year2 - year1)], and raises no error: when
    [year1 == year2] the annual change is an infinity or NaN.  For
    (2014, 22.0) and (2017, 35.0) the absolute change is 13.0 and the annual
    change is 13.0/3. *)
Theorem growth_data_by_period :
  (forall series,
      growth_data series
      = map (fun p => growth_row (fst p) (snd p)) (consecutive series))
  /\ (forall year1 value1 year2 value2,
         Growth_pp (growth_row (year1, value1) (year2, value2)) = value2 - value1
         /\ Annual_pp (growth_row (year1, value1) (year2, value2))
            = (value2 - value1) / float_of_Z (year2 - year1))
  /\ (forall year value1 value2,
         is_finite (Annual_pp (growth_row (year, value1) (year, value2))) = false)
  /\ growth_data [(2014%Z, 22); (2017%Z, 35)]
     = [ {| Period := "2014-2017"; Indicator := "Account Ownership";
            Growth_pp := 13; Annual_pp := 13 / 3 |} ].
Proof.
  split; [|split; [|split]].
  - intros [|first rest]; [reflexivity|].
    unfold consecutive. simpl. apply growth_from_consecutive.
  - intros. split; reflexivity.
  - intros year value1 value2. apply unbounded_not_finite.
    unfold growth_row. simpl. rewrite Z.sub_diag.
    apply div_zero_unbounded. reflexivity.
  - reflexivity.
Qed.

(** ** Milestones *)

Lemma recorded_entries (t : Z) (ms : list milestone) :
  recorded t ms = match entries t ms with [] => false | _ :: _ => true end.
Proof.
  unfold recorded, entries. induction ms as [|m ms IH]; simpl.
  - reflexivity.
  - rewrite (Z.eqb_sym t (m_threshold m)).
    destruct (Z.eqb (m_threshold m) t); simpl; [reflexivity | exact IH].
Qed.

Lemma entries_app (t : Z) (ms ms' : list milestone) :
  entries t (ms ++ ms')%list = (entries t ms ++ entries t ms')%list.
Proof. unfold entries. apply filter_app. Qed.

(** The entries for [t] after one [if] of the loop body. *)
Lemma entries_check (t : Z) (year : Z) (proj : float) (t' : Z) (label : string)
      (ms : list milestone) :
  entries t (check year proj t' label ms)
  = if Z.eqb t' t && reaches proj t && negb (recorded t ms)
    then [(year, t, label)]
    else entries t ms.
Proof.
  unfold check. destruct (Z.eqb t' t) eqn:E.
  - apply Z.eqb_eq in E. subst t'. simpl.
    destruct (reaches proj t); simpl; [|reflexivity].
    rewrite (recorded_entries t ms).
    destruct (entries t ms) eqn:Hent; simpl; [|exact Hent].
    rewrite entries_app, Hent.
    unfold entries, m_threshold. simpl. now rewrite Z.eqb_refl.
  - simpl. destruct (reaches proj t' && negb (recorded t' ms)); [|reflexivity].
    rewrite entries_app.
    replace (entries t [(year, t', label)]) with (@nil milestone).
    + apply app_nil_r.
    + unfold entries, m_threshold. simpl. now rewrite E.
Qed.

(** The entries for [t] after the loop body on one row. *)
Lemma entries_detect_body (thresholds : list (Z * string)) (t : Z)
      (year : Z) (proj : float) :
  forall ms,
    entries t (detect_body thresholds ms (year, proj))
    = if recorded t ms then entries t ms
      else if reaches proj t
           then match label_of t thresholds with
                | Some label => [(year, t, label)]
                | None => []
                end
           else [].
Proof.
  unfold detect_body. simpl.
  induction thresholds as [|[t' label'] thresholds IH]; intros ms; simpl.
  - rewrite recorded_entries. destruct (entries t ms); [|reflexivity].
    now destruct (reaches proj t).
  - rewrite IH. rewrite (recorded_entries t (check year proj t' label' ms)).
    rewrite entries_check. unfold label_of. simpl.
    destruct (Z.eqb t' t) eqn:E; simpl.
    + destruct (reaches proj t); simpl.
      * destruct (recorded t ms) eqn:R; simpl; [|reflexivity].
        rewrite recorded_entries in R.
        destruct (entries t ms); [discriminate|reflexivity].
      * rewrite recorded_entries. destruct (entries t ms); reflexivity.
    + rewrite recorded_entries. destruct (entries t ms); reflexivity.
Qed.

(** The entries for [t] after the whole scan, from any list of entries. *)
Lemma entries_detect_from (thresholds : list (Z * string)) (t : Z)
      (series : list (Z * float)) :
  forall ms,
    entries t (fold_left (detect_body thresholds) series ms)
    = if recorded t ms then entries t ms
      else match first_crossing t series, label_of t thresholds with
           | Some row, Some label => [(fst row, t, label)]
           | _, _ => []
           end.
Proof.
  induction series as [|[year proj] series IH]; intros ms; simpl.
  - rewrite recorded_entries. destruct (entries t ms); reflexivity.
  - rewrite IH. rewrite (recorded_entries t (detect_body _ _ _)).
    rewrite entries_detect_body. unfold first_crossing. simpl.
    destruct (recorded t ms) eqn:R.
    + rewrite recorded_entries in R.
      destruct (entries t ms); [discriminate|reflexivity].
    + destruct (reaches proj t); simpl.
      * destruct (label_of t thresholds); [reflexivity|].
        now destruct (find _ series).
      * reflexivity.
Qed.

(** The loop of the dashboard is the scan at its three thresholds. *)
Lemma milestones_detect (series : list (Z * float)) :
  milestones series = detect fixed_thresholds series.
Proof.
  unfold milestones, detect. generalize (@nil milestone).
  induction series as [|[year proj] series IH]; intros ms; simpl.
  - reflexivity.
  - apply IH.
Qed.

(** C7.  For every series and every list of thresholds the scan records,
    for each threshold of the list, one entry with the year of the first row
    whose value reaches the threshold, and no entry for a threshold that no
    row reaches: a later row, below or above the threshold, changes nothing.
    The dashboard's loop is this scan at the thresholds 50, 60 and 70, and on
    the series of the example it records 2025 for 50 and nothing for 60 and
    70. *)
Theorem milestones_first_crossing :
  (forall thresholds series t,
      entries t (detect thresholds series)
      = match first_crossing t series, label_of t thresholds with
        | Some row, Some label => [(fst row, t, label)]
        | _, _ => []
        end)
  /\ (forall series, milestones series = detect fixed_thresholds series)
  /\ (forall series,
         entries 50 (milestones series)
         = match first_crossing 50 series with
           | Some row => [(fst row, 50%Z, "Half of adults with accounts")]
           | None => []
           end
         /\ entries 60 (milestones series)
            = match first_crossing 60 series with
              | Some row => [(fst row, 60%Z, "Majority inclusion milestone")]
              | None => []
              end
         /\ entries 70 (milestones series)
            = match first_crossing 70 series with
              | Some row => [(fst row, 70%Z, "NFIS-II target achieved")]
              | None => []
              end)
  /\ milestones ownership = [(2025%Z, 50%Z, "Half of adults with accounts")]
  /\ first_crossing 60 ownership = None
  /\ first_crossing 70 ownership = None
  /\ milestones [(2025%Z, 72); (2026%Z, 40); (2027%Z, 65)]
     = [(2025%Z, 50%Z, "Half of adults with accounts");
        (2025%Z, 60%Z, "Majority inclusion milestone");
        (2025%Z, 70%Z, "NFIS-II target achieved")].
Proof.
  assert (G : forall thresholds series t,
             entries t (detect thresholds series)
             = match first_crossing t series, label_of t thresholds with
               | Some row, Some label => [(fst row, t, label)]
               | _, _ => []
               end).
  { intros thresholds series t. unfold detect.
    now rewrite entries_detect_from. }
  split; [exact G|]. split; [exact milestones_detect|]. split.
  - intros series. rewrite milestones_detect.
    repeat split; rewrite G; unfold label_of; simpl;
      now destruct (first_crossing _ series).
  - repeat split; reflexivity.
Qed.

End DashboardFacts.

(* ================================================================== *)
(** * More on the identifier generator *)
(* ================================================================== *)

Module IdGeneratorMore.
Import IdGenerator IdGeneratorFacts Notions.

(** ** Decimal text and its value *)

Ltac eval_digit :=
  match goal with
  | |- context [digit_val ?c] =>
      let v := eval vm_compute in (digit_val c) in change (digit_val c) with v
  end.

Lemma int_acc_pos (d : Decimal.uint) :
  forall p, int_acc (Npos p) (NilEmpty.string_of_uint d) = Npos (Pos.of_uint_acc d p).
Proof.
  induction d; intros p; cbn [NilEmpty.string_of_uint int_acc Pos.of_uint_acc];
    try reflexivity; rewrite <- IHd; f_equal; eval_digit; lia.
Qed.

Lemma int_acc_uint (d : Decimal.uint) :
  int_acc 0 (NilEmpty.string_of_uint d) = N.of_uint d.
Proof.
  unfold N.of_uint.
  induction d; cbn [NilEmpty.string_of_uint int_acc Pos.of_uint];
    try reflexivity; eval_digit; try exact IHd;
    rewrite <- int_acc_pos; reflexivity.
Qed.

(** Reading the decimal text of a number gives the number back. *)
Lemma int_of_digits_str (n : N) : int_of_digits (str_of_N n) = n.
Proof.
  unfold int_of_digits, str_of_N. rewrite int_acc_uint.
  apply DecimalN.Unsigned.of_to.
Qed.

Lemma int_acc_zeros (k : nat) (s : string) : int_acc 0 (zeros k ++ s) = int_acc 0 s.
Proof. induction k as [|k IH]; simpl; [reflexivity | exact IH]. Qed.

Lemma digits_uint (d : Decimal.uint) :
  all_chars is_digit (NilEmpty.string_of_uint d) = true.
Proof. induction d; simpl; try reflexivity; exact IHd. Qed.

Lemma digits_zeros (k : nat) (s : string) :
  all_chars is_digit s = true -> all_chars is_digit (zeros k ++ s) = true.
Proof. intros H. induction k as [|k IH]; simpl; [exact H | exact IH]. Qed.

Lemma digits_fmt_04d (n : N) : all_chars is_digit (fmt_04d n) = true.
Proof. unfold fmt_04d. apply digits_zeros. apply digits_uint. Qed.

Lemma is_digit_val (c : ascii) : is_digit c = true -> (digit_val c <= 9)%N.
Proof.
  unfold is_digit, digit_val. intros H.
  apply andb_true_iff in H as [H1 H2].
  apply N.leb_le in H1, H2. lia.
Qed.

(** A text of [k] digits reads as a number below [10^k]. *)
Lemma int_acc_bound (s : string) :
  all_chars is_digit s = true ->
  forall acc,
    (int_acc acc s < (acc + 1) * 10 ^ N.of_nat (String.length s))%N.
Proof.
  induction s as [|c s IH]; intros H acc; cbn [int_acc String.length].
  - simpl. lia.
  - simpl in H. apply andb_true_iff in H as [Hc Hs].
    specialize (IH Hs (10 * acc + digit_val c)%N).
    apply is_digit_val in Hc.
    rewrite Nat2N.inj_succ, N.pow_succ_r'.
    eapply N.lt_le_trans; [exact IH|].
    set (q := (10 ^ N.of_nat (String.length s))%N).
    replace ((acc + 1) * (10 * q))%N with ((10 * acc + 10) * q)%N by lia.
    apply N.mul_le_mono_r. lia.
Qed.

Lemma length_append (s t : string) :
  String.length (s ++ t) = (String.length s + String.length t)%nat.
Proof. induction s as [|c s IH]; simpl; [reflexivity | now rewrite IH]. Qed.

Lemma length_zeros (k : nat) : String.length (zeros k) = k.
Proof. induction k as [|k IH]; simpl; [reflexivity | now rewrite IH]. Qed.

(** The padded text has four characters at least. *)
Lemma length_fmt_04d (n : N) : (4 <= String.length (fmt_04d n))%nat.
Proof. unfold fmt_04d. rewrite length_append, length_zeros. lia. Qed.

(** From 1000 on, the padded text is the plain text. *)
Lemma fmt_04d_plain (n : N) : (1000 <= n)%N -> fmt_04d n = str_of_N n.
Proof.
  intros H. unfold fmt_04d.
  assert (L : (4 <= String.length (str_of_N n))%nat).
  { destruct (le_lt_dec 4 (String.length (str_of_N n))) as [L|L]; [exact L|].
    exfalso.
    pose proof (int_acc_bound (str_of_N n) (digits_uint _) 0%N) as B.
    fold (int_of_digits (str_of_N n)) in B. rewrite int_of_digits_str in B.
    assert (10 ^ N.of_nat (String.length (str_of_N n)) <= 10 ^ 3)%N.
    { apply N.pow_le_mono_r; lia. }
    change (10 ^ 3)%N with 1000%N in *. lia. }
  replace (4 - String.length (str_of_N n))%nat with 0%nat by lia.
  reflexivity.
Qed.

(** ** The pattern *)

Lemma span_spec (p : ascii -> bool) (s : string) :
  forall a b, span p s = (a, b) ->
              s = a ++ b /\ all_chars p a = true
              /\ match b with String c _ => p c = false | EmptyString => True end.
Proof.
  induction s as [|c s IH]; simpl; intros a b H.
  - injection H as <- <-. repeat split.
  - destruct (p c) eqn:E.
    + destruct (span p s) as [a' b']. injection H as <- <-.
      destruct (IH a' b' eq_refl) as (-> & Ha & Hb).
      simpl. rewrite E. repeat split; assumption.
    + injection H as <- <-. simpl. repeat split. exact E.
Qed.

Lemma span_app (p : ascii -> bool) (a b : string) :
  all_chars p a = true ->
  match b with String c _ => p c = false | EmptyString => True end ->
  span p (a ++ b) = (a, b).
Proof.
  intros Ha Hb. induction a as [|c a IH]; simpl.
  - destruct b as [|c b]; [reflexivity|]. simpl. now rewrite Hb.
  - simpl in Ha. apply andb_true_iff in Ha as [Hc Ha].
    rewrite Hc, (IH Ha). reflexivity.
Qed.

(** What a match says about the identifier: a non-empty run of capital
    letters, an underscore, a non-empty run of digits, and a rest that does
    not start with a digit. *)
Lemma re_match_spec (base_id prefix digits : string) :
  re_match base_id = Some (prefix, digits) ->
  exists rest,
    base_id = prefix ++ "_" ++ digits ++ rest
    /\ prefix <> "" /\ all_chars is_upper prefix = true
    /\ digits <> "" /\ all_chars is_digit digits = true.
Proof.
  unfold re_match. intros H.
  destruct (span is_upper base_id) as [a b] eqn:E1.
  destruct a as [|c a]; [discriminate|].
  destruct b as [|u b]; [discriminate|].
  destruct (Ascii.ascii_dec u "_") as [->|Hu].
  2:{ destruct u as [[] [] [] [] [] [] [] []]; try discriminate H.
      now contradiction Hu. }
  destruct (span is_digit b) as [n r] eqn:E2.
  destruct n as [|d n]; [discriminate|].
  injection H as <- <-.
  apply span_spec in E1 as (-> & Hp & _).
  apply span_spec in E2 as (-> & Hd & _).
  exists r. repeat split; try assumption; discriminate.
Qed.

(** ** What the generator returns *)






(** X4.  When the number read in the identifier is 1000 or more, padding
    changes nothing and the identifier returned is not in the list. *)
Theorem generate_record_id_fresh_from_1000 (base_id prefix digits r : string)
        (ex : list string) :
  re_match base_id = Some (prefix, digits) ->
  (1000 <= int_of_digits digits)%N ->
  generate_record_id base_id ex = Some r ->
  ~ In r ex.
Proof.
  intros Hre Hbig H. unfold generate_record_id in H.
  destruct (str_in base_id ex) eqn:E; cbn [negb] in H.
  - rewrite Hre in H.
    destruct (while_taken (S (List.length ex)) (plain prefix) ex
                          (int_of_digits digits)) as [k|] eqn:W; [|discriminate].
    cbn [option_map] in H. injection H as <-.
    apply while_taken_spec in W as (Hle & Hfree & _).
    unfold padded. rewrite fmt_04d_plain by lia. exact Hfree.
  - injection H as <-. now apply str_in_false.
Qed.

Lemma generate_record_id_fresh_from_1000_witness :
  generate_record_id "REC_1000" ["REC_1000"; "REC_1001"] = Some "REC_1002"
  /\ ~ In "REC_1002" ["REC_1000"; "REC_1001"].
Proof.
  split; [reflexivity|].
  apply (generate_record_id_fresh_from_1000
           "REC_1000" "REC" "1000" "REC_1002" ["REC_1000"; "REC_1001"]).
  - reflexivity.
  - vm_compute. discriminate.
  - reflexivity.
Defined.

(** X5.  An identifier built by the pattern branch matches the pattern
    again, with the same prefix, and its digits read back as the number it
    was built from. *)
Theorem padded_round_trip (base_id prefix digits : string) (k : N) :
  re_match base_id = Some (prefix, digits) ->
  re_match (padded prefix k) = Some (prefix, fmt_04d k)
  /\ int_of_digits (fmt_04d k) = k.
Proof.
  intros Hre.
  destruct (re_match_spec _ _ _ Hre) as (rest & _ & Hne & Hup & _ & _).
  split.
  - unfold re_match, padded.
    rewrite (span_app is_upper prefix ("_" ++ fmt_04d k) Hup eq_refl).
    destruct prefix as [|c prefix]; [contradiction|].
    cbn [append].
    replace (fmt_04d k) with (fmt_04d k ++ "") at 1
      by (clear; induction (fmt_04d k); simpl; congruence).
    rewrite (span_app is_digit (fmt_04d k) "" (digits_fmt_04d k) I).
    pose proof (length_fmt_04d k) as L.
    destruct (fmt_04d k); [simpl in L; lia | reflexivity].
  - unfold fmt_04d, int_of_digits. rewrite int_acc_zeros.
    apply int_of_digits_str.
Qed.

Lemma padded_round_trip_witness :
  re_match (padded "REC" 3) = Some ("REC", fmt_04d 3)
  /\ int_of_digits (fmt_04d 3) = 3%N.
Proof.
  apply (padded_round_trip "REC_0001" "REC" "0001" 3). reflexivity.
Defined.

End IdGeneratorMore.

(* ================================================================== *)
(** * More on the validator and the summariser *)
(* ================================================================== *)

Module DataLoaderMore.
Import DataLoader Samples Notions DataLoaderFacts.

(** ** Masks *)

Lemma select_map {A B : Type} (f : A -> B) (mask : list bool) (l : list A) :
  select mask (map f l) = map f (select mask l).
Proof.
  revert l. induction mask as [|b mask IH]; intros [|x l]; simpl;
    try reflexivity.
  destruct b; simpl; now rewrite IH.
Qed.

Lemma select_filter {A : Type} (g : A -> bool) (l : list A) :
  select (map g l) l = filter g l.
Proof.
  induction l as [|x l IH]; simpl; [reflexivity|].
  destruct (g x); now rewrite IH.
Qed.

Lemma select_combine {A B : Type} (g : A -> bool) (l : list A) (l' : list B) :
  List.length l = List.length l' ->
  select (map g l) l' = map snd (filter (fun p => g (fst p)) (combine l l')).
Proof.
  revert l'. induction l as [|x l IH]; intros [|y l'] H; simpl in *;
    try reflexivity; try discriminate.
  injection H as H. destruct (g x); simpl; now rewrite IH.
Qed.

(** A column of the selected rows is the selection of the column. *)
Lemma getitem_mask_ok (df : DataFrame) (mask : list bool) (name : string)
      (col : list cell) :
  getitem df name = Ok col ->
  getitem (getitem_mask df mask) name = Ok (select mask col).
Proof.
  unfold getitem, getitem_mask. simpl.
  destruct (index_of name (columns df)); [|discriminate].
  intros H. injection H as <-. now rewrite select_map.
Qed.

Lemma getitem_length (df : DataFrame) (name : string) (col : list cell) :
  getitem df name = Ok col -> List.length col = len df.
Proof.
  unfold getitem, len. destruct (index_of name (columns df)); [|discriminate].
  intros H. injection H as <-. apply length_map.
Qed.

Lemma getitem_ok_in (df : DataFrame) (name : string) (col : list cell) :
  getitem df name = Ok col -> In name (columns df).
Proof.
  intros H. destruct (in_dec string_dec name (columns df)) as [Hin|Hout];
    [exact Hin|].
  rewrite (getitem_absent df name Hout) in H. discriminate.
Qed.

(** ** The report of the validator *)

(** The report in full, when the three columns read by the validator exist:
    the issue entries, then the summary, whose verdict compares the number
    of issue entries with one. *)
Lemma validate_data_report (self : EthiopiaFIDataLoader)
      (unified reference : DataFrame) (field codes types : list cell) :
  unified_data self = Some unified ->
  reference_codes self = Some reference ->
  getitem reference "field" = Ok field ->
  getitem reference "code" = Ok codes ->
  getitem unified "record_type" = Ok types ->
  let valid := select (series_eq field "record_type") codes in
  let offending := filter (fun c => negb (existsb (cell_eqb c) valid)) types in
  let issues := issue_entries (missing_cols unified) offending in
  validate_data self
  = Ok (issues
        ++ [("summary",
             VSummary {| total_records := len unified;
                         valid_record_types := valid;
                         data_quality :=
                           if (List.length issues =? 1)%nat
                           then "PASS" else "NEEDS REVIEW" |})])%list.
Proof.
  intros Hu Hr Hf Hc Ht valid offending issues.
  unfold validate_data. rewrite Hu, Hr, Hf. cbn [Py.bind].
  rewrite (getitem_mask_ok reference _ "code" codes Hc). cbn [Py.bind].
  rewrite Ht. cbn [Py.bind]. fold valid.
  rewrite (getitem_mask_ok unified _ "record_type" types Ht).
  assert (Hsel : select (invert (isin types valid)) types = offending).
  { unfold invert, isin. rewrite map_map. apply select_filter. }
  assert (Hlen : len (getitem_mask unified (invert (isin types valid)))
                 = List.length offending).
  { rewrite <- Hsel. unfold len, getitem_mask. cbn [rows].
    unfold getitem in Ht.
    destruct (index_of "record_type" (columns unified)) as [i|]; [|discriminate].
    injection Ht as <-. rewrite select_map. now rewrite length_map. }
  rewrite Hlen, Hsel. subst issues. unfold issue_entries.
  destruct (missing_cols unified) as [|m ms]; destruct offending as [|o os];
    reflexivity.
Qed.

Lemma validate_data_no_field (self : EthiopiaFIDataLoader)
      (unified reference : DataFrame) :
  unified_data self = Some unified ->
  reference_codes self = Some reference ->
  ~ In "field" (columns reference) ->
  validate_data self = Raise (KeyError "field").
Proof.
  intros Hu Hr H. unfold validate_data. rewrite Hu, Hr.
  now rewrite (getitem_absent reference "field" H).
Qed.

Lemma validate_data_no_code (self : EthiopiaFIDataLoader)
      (unified reference : DataFrame) :
  unified_data self = Some unified ->
  reference_codes self = Some reference ->
  In "field" (columns reference) -> ~ In "code" (columns reference) ->
  validate_data self = Raise (KeyError "code").
Proof.
  intros Hu Hr Hf H. unfold validate_data. rewrite Hu, Hr.
  destruct (getitem_present reference "field" Hf) as [field Ef].
  rewrite Ef. cbn [Py.bind].
  now rewrite (getitem_absent (getitem_mask reference _) "code" H).
Qed.

Lemma validate_data_no_record_type (self : EthiopiaFIDataLoader)
      (unified reference : DataFrame) :
  unified_data self = Some unified ->
  reference_codes self = Some reference ->
  In "field" (columns reference) -> In "code" (columns reference) ->
  ~ In "record_type" (columns unified) ->
  validate_data self = Raise (KeyError "record_type").
Proof.
  intros Hu Hr Hf Hc H. unfold validate_data. rewrite Hu, Hr.
  destruct (getitem_present reference "field" Hf) as [field Ef].
  destruct (getitem_present reference "code" Hc) as [codes Ec].
  rewrite Ef. cbn [Py.bind].
  rewrite (getitem_mask_ok reference _ "code" codes Ec). cbn [Py.bind].
  now rewrite (getitem_absent unified "record_type" H).
Qed.

(** A report was returned: the three columns exist, and the report is the
    one of [validate_data_report]. *)
Lemma validate_data_ok_inv (self : EthiopiaFIDataLoader)
      (unified reference : DataFrame) (r : dict report_value) :
  unified_data self = Some unified ->
  reference_codes self = Some reference ->
  validate_data self = Ok r ->
  exists field codes types,
    getitem reference "field" = Ok field
    /\ getitem reference "code" = Ok codes
    /\ getitem unified "record_type" = Ok types
    /\ let valid := select (series_eq field "record_type") codes in
       let offending := filter (fun c => negb (existsb (cell_eqb c) valid)) types in
       let issues := issue_entries (missing_cols unified) offending in
       r = (issues
            ++ [("summary",
                 VSummary {| total_records := len unified;
                             valid_record_types := valid;
                             data_quality :=
                               if (List.length issues =? 1)%nat
                               then "PASS" else "NEEDS REVIEW" |})])%list.
Proof.
  intros Hu Hr H.
  destruct (in_dec string_dec "field" (columns reference)) as [Hf|Hf].
  2:{ rewrite (validate_data_no_field self unified reference Hu Hr Hf) in H.
      discriminate. }
  destruct (in_dec string_dec "code" (columns reference)) as [Hc|Hc].
  2:{ rewrite (validate_data_no_code self unified reference Hu Hr Hf Hc) in H.
      discriminate. }
  destruct (in_dec string_dec "record_type" (columns unified)) as [Ht|Ht].
  2:{ rewrite (validate_data_no_record_type self unified reference Hu Hr Hf Hc Ht)
        in H. discriminate. }
  destruct (getitem_present reference "field" Hf) as [field Ef].
  destruct (getitem_present reference "code" Hc) as [codes Ec].
  destruct (getitem_present unified "record_type" Ht) as [types Et].
  exists field, codes, types. repeat (split; [assumption|]).
  rewrite (validate_data_report self unified reference field codes types
             Hu Hr Ef Ec Et) in H.
  cbv zeta in H |- *. now injection H as <-.
Qed.

(** X6.  With both tables loaded, the validator raises [KeyError] in three
    cases: the reference codes lack the column [field], or the column
    [code], or the records lack the column [record_type], so a missing
    [record_type] column ends the validation instead of being reported.  In
    every other case it returns a report. *)
Theorem validate_data_key_errors (self : EthiopiaFIDataLoader)
        (unified reference : DataFrame) :
  unified_data self = Some unified ->
  reference_codes self = Some reference ->
  (~ In "field" (columns reference) ->
   validate_data self = Raise (KeyError "field"))
  /\ (In "field" (columns reference) -> ~ In "code" (columns reference) ->
      validate_data self = Raise (KeyError "code"))
  /\ (In "field" (columns reference) -> In "code" (columns reference) ->
      ~ In "record_type" (columns unified) ->
      validate_data self = Raise (KeyError "record_type"))
  /\ (In "field" (columns reference) -> In "code" (columns reference) ->
      In "record_type" (columns unified) ->
      exists r, validate_data self = Ok r).
Proof.
  intros Hu Hr. split; [|split; [|split]].
  - exact (validate_data_no_field self unified reference Hu Hr).
  - exact (validate_data_no_code self unified reference Hu Hr).
  - exact (validate_data_no_record_type self unified reference Hu Hr).
  - intros Hf Hc Ht.
    destruct (getitem_present reference "field" Hf) as [field Ef].
    destruct (getitem_present reference "code" Hc) as [codes Ec].
    destruct (getitem_present unified "record_type" Ht) as [types Et].
    rewrite (validate_data_report self unified reference field codes types
               Hu Hr Ef Ec Et).
    eexists; reflexivity.
Qed.

Lemma validate_data_key_errors_witness :
  validate_data (loaded ids_only reference) = Raise (KeyError "record_type")
  /\ validate_data (loaded clean ids_only) = Raise (KeyError "field")
  /\ exists r, validate_data (loaded clean reference) = Ok r.
Proof.
  split; [|split].
  - apply (proj1 (proj2 (proj2 (validate_data_key_errors
             (loaded ids_only reference) ids_only reference eq_refl eq_refl)))).
    + simpl. tauto.
    + simpl. tauto.
    + simpl. intros [H|[]]. discriminate.
  - apply (proj1 (validate_data_key_errors
             (loaded clean ids_only) clean ids_only eq_refl eq_refl)).
    simpl. intros [H|[]]. discriminate.
  - apply (proj2 (proj2 (proj2 (validate_data_key_errors
             (loaded clean reference) clean reference eq_refl eq_refl))));
      simpl; tauto.
Defined.

Lemma dict_get_issues (key : string) (issues : dict report_value)
      (v : report_value) :
  key <> "summary" ->
  dict_get key (issues ++ [("summary", v)])%list = dict_get key issues.
Proof.
  intros Hk. induction issues as [|[k w] issues IH]; simpl.
  - destruct (String.eqb key "summary") eqn:E; [|reflexivity].
    apply String.eqb_eq in E. contradiction.
  - destruct (String.eqb key k); [reflexivity | exact IH].
Qed.

Lemma dict_get_summary (missing : list string) (offending : list cell)
      (v : report_value) :
  dict_get "summary" (issue_entries missing offending ++ [("summary", v)])%list
  = Some v.
Proof. destruct missing, offending; reflexivity. Qed.

(** X7.  In a report, the entry [missing_columns] is there exactly when a
    required column is missing, and then it lists the required columns that
    the records lack, in the order of the requirement.  [record_type] is
    never among them. *)
Theorem validate_data_missing_columns (self : EthiopiaFIDataLoader)
        (unified reference : DataFrame) (r : dict report_value) :
  unified_data self = Some unified ->
  reference_codes self = Some reference ->
  validate_data self = Ok r ->
  dict_get "missing_columns" r
  = match missing_cols unified with
    | [] => None
    | _ :: _ => Some (VColumns (missing_cols unified))
    end
  /\ missing_cols unified
     = filter (fun col => negb (str_in col (columns unified))) required_cols
  /\ (forall col, In col (missing_cols unified)
                  <-> In col required_cols /\ ~ In col (columns unified))
  /\ ~ In "record_type" (missing_cols unified).
Proof.
  intros Hu Hr H.
  destruct (validate_data_ok_inv self unified reference r Hu Hr H)
    as (field & codes & types & Ef & Ec & Et & ->).
  assert (Hin : forall col, In col (missing_cols unified)
                            <-> In col required_cols /\ ~ In col (columns unified)).
  { intros col. unfold missing_cols. rewrite filter_In.
    rewrite negb_true_iff, IdGeneratorFacts.str_in_false. tauto. }
  split; [|split; [reflexivity|split; [exact Hin|]]].
  - cbv zeta. rewrite dict_get_issues by discriminate.
    unfold issue_entries.
    destruct (missing_cols unified); [|reflexivity].
    now destruct (filter _ types).
  - intros Hm. apply Hin in Hm as [_ Hm]. apply Hm.
    now apply getitem_ok_in with types.
Qed.

Lemma validate_data_missing_columns_witness :
  dict_get "missing_columns"
    [("missing_columns", VColumns ["category"]);
     ("summary",
      VSummary {| total_records := 2;
                  valid_record_types := [Some "observation"; Some "event"];
                  data_quality := "PASS" |})]
  = Some (VColumns ["category"])
  /\ missing_cols no_category = ["category"].
Proof.
  destruct (validate_data_missing_columns
              (loaded no_category reference) no_category reference _
              eq_refl eq_refl eq_refl) as (H1 & H2 & _).
  split; [exact H1 | reflexivity].
Defined.

(** X8.  In a report, the entry [invalid_record_types] is there exactly
    when some record has a type outside the registered ones, and then it
    lists, each once, the types found in the records that are not
    registered. *)
Theorem validate_data_invalid_record_types (self : EthiopiaFIDataLoader)
        (unified reference : DataFrame) (r : dict report_value)
        (types : list cell) :
  unified_data self = Some unified ->
  reference_codes self = Some reference ->
  getitem unified "record_type" = Ok types ->
  validate_data self = Ok r ->
  exists s,
    dict_get "summary" r = Some (VSummary s)
    /\ match dict_get "invalid_record_types" r with
       | Some v =>
           exists offending,
             v = VValues offending /\ offending <> [] /\ NoDup offending
             /\ forall c, In c offending
                          <-> In c types /\ ~ In c (valid_record_types s)
       | None => forall c, In c types -> In c (valid_record_types s)
       end.
Proof.
  intros Hu Hr Ht H.
  destruct (validate_data_ok_inv self unified reference r Hu Hr H)
    as (field & codes & types' & Ef & Ec & Et & ->).
  rewrite Ht in Et. injection Et as <-. cbv zeta.
  set (valid := select (series_eq field "record_type") codes).
  set (offending := filter (fun c => negb (existsb (cell_eqb c) valid)) types).
  eexists. split; [apply dict_get_summary|]. cbn [valid_record_types].
  rewrite dict_get_issues by discriminate.
  assert (Hoff : forall c, In c offending <-> In c types /\ ~ In c valid).
  { intros c. unfold offending. rewrite filter_In, negb_true_iff.
    split; intros [H1 H2]; (split; [exact H1|]).
    - intros Hin. apply (existsb_eqb cell_eqb cell_eqb_eq) in Hin. congruence.
    - destruct (existsb (cell_eqb c) valid) eqn:E; [|reflexivity].
      apply (existsb_eqb cell_eqb cell_eqb_eq) in E. contradiction. }
  unfold issue_entries.
  destruct offending as [|o os] eqn:Eo.
  - replace (dict_get "invalid_record_types" _) with (@None report_value)
      by now destruct (missing_cols unified).
    intros c Hc.
    destruct (existsb (cell_eqb c) valid) eqn:E.
    + now apply (existsb_eqb cell_eqb cell_eqb_eq) in E.
    + exfalso. apply (proj2 (Hoff c)). split; [exact Hc|].
      intros Hin. apply (existsb_eqb cell_eqb cell_eqb_eq) in Hin. congruence.
  - replace (dict_get "invalid_record_types" _)
      with (Some (VValues (unique cell_eqb (o :: os))))
      by now destruct (missing_cols unified).
    exists (unique cell_eqb (o :: os)). split; [reflexivity|].
    split; [|split].
    + intros E. assert (Hin : In o (unique cell_eqb (o :: os))).
      { apply (unique_in cell_eqb cell_eqb_eq). now left. }
      rewrite E in Hin. contradiction.
    + apply (unique_nodup cell_eqb cell_eqb_eq).
    + intros c. rewrite (unique_in cell_eqb cell_eqb_eq). apply Hoff.
Qed.

Lemma validate_data_invalid_record_types_witness :
  exists s,
    dict_get "summary"
      [("invalid_record_types", VValues [Some "estimate"]);
       ("summary",
        VSummary {| total_records := 2;
                    valid_record_types := [Some "observation"; Some "event"];
                    data_quality := "PASS" |})] = Some (VSummary s)
    /\ match dict_get "invalid_record_types"
               [("invalid_record_types", VValues [Some "estimate"]);
                ("summary",
                 VSummary {| total_records := 2;
                             valid_record_types := [Some "observation"; Some "event"];
                             data_quality := "PASS" |})] with
       | Some v =>
           exists offending,
             v = VValues offending /\ offending <> [] /\ NoDup offending
             /\ forall c, In c offending
                          <-> In c [Some "observation"; Some "estimate"]
                              /\ ~ In c (valid_record_types s)
       | None => forall c, In c [Some "observation"; Some "estimate"]
                           -> In c (valid_record_types s)
       end.
Proof.
  exact (validate_data_invalid_record_types
           (loaded odd_type reference) odd_type reference _ _
           eq_refl eq_refl eq_refl eq_refl).
Defined.

(** X9.  A report always has the entry [summary]: the number of records,
    and the registered record types, which are the codes of the rows of the
    reference table whose field is [record_type], in the order of the
    table. *)
Theorem validate_data_summary (self : EthiopiaFIDataLoader)
        (unified reference : DataFrame) (r : dict report_value)
        (field codes : list cell) :
  unified_data self = Some unified ->
  reference_codes self = Some reference ->
  getitem reference "field" = Ok field ->
  getitem reference "code" = Ok codes ->
  validate_data self = Ok r ->
  exists s,
    dict_get "summary" r = Some (VSummary s)
    /\ total_records s = len unified
    /\ valid_record_types s
       = map snd (filter (fun p => cell_eqb (Some "record_type") (fst p))
                         (combine field codes)).
Proof.
  intros Hu Hr Hf Hc H.
  destruct (validate_data_ok_inv self unified reference r Hu Hr H)
    as (field' & codes' & types & Ef & Ec & Et & ->).
  rewrite Hf in Ef. injection Ef as <-.
  rewrite Hc in Ec. injection Ec as <-. cbv zeta.
  eexists. split; [apply dict_get_summary|]. split; [reflexivity|].
  cbn [valid_record_types]. unfold series_eq. apply select_combine.
  now rewrite (getitem_length _ _ _ Hf), (getitem_length _ _ _ Hc).
Qed.

Lemma validate_data_summary_witness :
  exists s,
    dict_get "summary"
      [("summary",
        VSummary {| total_records := 2;
                    valid_record_types := [Some "observation"; Some "event"];
                    data_quality := "NEEDS REVIEW" |})] = Some (VSummary s)
    /\ total_records s = len clean
    /\ valid_record_types s
       = map snd (filter (fun p => cell_eqb (Some "record_type") (fst p))
                         (combine [Some "record_type"; Some "record_type"; Some "pillar"]
                                  [Some "observation"; Some "event"; Some "access"])).
Proof.
  exact (validate_data_summary (loaded clean reference) clean reference _ _ _
                               eq_refl eq_refl eq_refl eq_refl eq_refl).
Defined.

(** X10.  The verdict of a report is [PASS] exactly when one of the two
    issue entries is there and the other is not; with no issue entry and
    with both it is [NEEDS REVIEW]. *)
Theorem validate_data_verdict (self : EthiopiaFIDataLoader)
        (r : dict report_value) (s : ValidationSummary) :
  validate_data self = Ok r ->
  dict_get "summary" r = Some (VSummary s) ->
  (data_quality s = "PASS" \/ data_quality s = "NEEDS REVIEW")
  /\ (data_quality s = "PASS" <->
      (dict_get "missing_columns" r <> None
       /\ dict_get "invalid_record_types" r = None)
      \/ (dict_get "missing_columns" r = None
          /\ dict_get "invalid_record_types" r <> None)).
Proof.
  intros H Hs. split; [|now apply data_quality_pass_iff with self].
  unfold validate_data in H.
  repeat step_validator H; try discriminate;
    injection H as <-; simpl in Hs; try discriminate;
    injection Hs as <-; simpl; tauto.
Qed.

Lemma validate_data_verdict_witness :
  (data_quality {| total_records := 2;
                   valid_record_types := [Some "observation"; Some "event"];
                   data_quality := "PASS" |} = "PASS"
   \/ data_quality {| total_records := 2;
                      valid_record_types := [Some "observation"; Some "event"];
                      data_quality := "PASS" |} = "NEEDS REVIEW")
  /\ validate_data (loaded odd_type reference)
     = Ok [("invalid_record_types", VValues [Some "estimate"]);
           ("summary",
            VSummary {| total_records := 2;
                        valid_record_types := [Some "observation"; Some "event"];
                        data_quality := "PASS" |})].
Proof.
  split; [|reflexivity].
  exact (proj1 (validate_data_verdict (loaded odd_type reference) _ _
                                      eq_refl eq_refl)).
Defined.

(** ** The summariser *)

(** X11.  With the records loaded, the summariser raises [KeyError] for
    the first of [record_type], [pillar], [source_type], [confidence] that
    is not a column of the records, and returns its four tables when all
    four are columns. *)
Theorem get_data_summary_key_error (self : EthiopiaFIDataLoader)
        (df : DataFrame) :
  unified_data self = Some df ->
  match first_missing df with
  | Some name => get_data_summary self = Raise (KeyError name)
  | None =>
      exists summary,
        get_data_summary self = Ok summary
        /\ dict_keys summary = ["record_types"; "pillars"; "sources"; "confidence"]
  end.
Proof.
  intros Hdf. unfold first_missing, grouping_columns, grouping.
  unfold get_data_summary. rewrite Hdf. cbn [map snd find].
  destruct (str_in "record_type" (columns df)) eqn:E1; cbn [negb].
  2:{ apply IdGeneratorFacts.str_in_false in E1.
      now rewrite (getitem_absent df _ E1). }
  apply IdGeneratorFacts.str_in_true in E1.
  destruct (getitem_present df _ E1) as [rt Hrt]. rewrite Hrt. cbn [Py.bind].
  destruct (str_in "pillar" (columns df)) eqn:E2; cbn [negb].
  2:{ apply IdGeneratorFacts.str_in_false in E2.
      now rewrite (getitem_absent df _ E2). }
  apply IdGeneratorFacts.str_in_true in E2.
  destruct (getitem_present df _ E2) as [p Hp]. rewrite Hp. cbn [Py.bind].
  destruct (str_in "source_type" (columns df)) eqn:E3; cbn [negb].
  2:{ apply IdGeneratorFacts.str_in_false in E3.
      now rewrite (getitem_absent df _ E3). }
  apply IdGeneratorFacts.str_in_true in E3.
  destruct (getitem_present df _ E3) as [s Hs]. rewrite Hs. cbn [Py.bind].
  destruct (str_in "confidence" (columns df)) eqn:E4; cbn [negb].
  2:{ apply IdGeneratorFacts.str_in_false in E4.
      now rewrite (getitem_absent df _ E4). }
  apply IdGeneratorFacts.str_in_true in E4.
  destruct (getitem_present df _ E4) as [c Hc]. rewrite Hc. cbn [Py.bind].
  eexists. split; reflexivity.
Qed.

Lemma get_data_summary_key_error_witness :
  first_missing no_pillar = Some "pillar"
  /\ get_data_summary (loaded no_pillar reference) = Raise (KeyError "pillar").
Proof.
  split; [reflexivity|].
  exact (get_data_summary_key_error (loaded no_pillar reference) no_pillar eq_refl).
Defined.

Lemma list_sum_perm (l l' : list (string * nat)) :
  Permutation l l' -> list_sum (map snd l) = list_sum (map snd l').
Proof.
  induction 1 as [|x l l' _ IH|x y l|l l' l'' _ IH1 _ IH2]; simpl; lia.
Qed.

Lemma occurrences_cons_none (v : string) (series : list cell) :
  occurrences v (None :: series) = occurrences v series.
Proof. reflexivity. Qed.

Lemma occurrences_cons_some (v x : string) (series : list cell) :
  occurrences v (Some x :: series)
  = ((if String.eqb v x then 1 else 0) + occurrences v series)%nat.
Proof. unfold occurrences. simpl. now destruct (String.eqb v x). Qed.

Lemma sum_indicator (x : string) (u : list string) :
  NoDup u -> In x u ->
  list_sum (map (fun v => if String.eqb v x then 1 else 0) u) = 1%nat.
Proof.
  induction 1 as [|y u Hy Hu IH]; intros Hin; [contradiction|]. simpl.
  assert (Z : forall w, ~ In x w ->
                        list_sum (map (fun v => if String.eqb v x then 1 else 0) w)
                        = 0%nat).
  { induction w as [|z w IHw]; intros Hz; simpl; [reflexivity|].
    destruct (String.eqb z x) eqn:E.
    - apply String.eqb_eq in E. subst. exfalso. apply Hz. now left.
    - apply IHw. intros H. apply Hz. now right. }
  destruct (String.eqb y x) eqn:E.
  - apply String.eqb_eq in E. subst y. now rewrite Z.
  - destruct Hin as [->|Hin]; [now rewrite String.eqb_refl in E|].
    now rewrite IH.
Qed.

Lemma sum_occurrences (u : list string) (series : list cell) :
  NoDup u -> (forall v, In (Some v) series -> In v u) ->
  list_sum (map (fun v => occurrences v series) u) = List.length (dropna series).
Proof.
  intros Hu. induction series as [|[x|] series IH]; intros Hall.
  - simpl. induction u as [|v u IHu]; simpl; [reflexivity|].
    inversion Hu; subst. now apply IHu.
  - cbn [dropna List.length].
    transitivity
      (list_sum (map (fun v => if String.eqb v x then 1 else 0) u)
       + list_sum (map (fun v => occurrences v series) u))%nat.
    + clear. induction u as [|v u IHu]; simpl; [reflexivity|].
      rewrite occurrences_cons_some. lia.
    + rewrite (sum_indicator x u Hu) by (apply Hall; now left).
      rewrite IH by (intros v Hv; apply Hall; now right). reflexivity.
  - cbn [dropna]. rewrite <- IH by (intros v Hv; apply Hall; now right).
    apply f_equal, map_ext. intros v. apply occurrences_cons_none.
Qed.

Lemma dropna_length (series : list cell) :
  (List.length (dropna series) <= List.length series)%nat.
Proof. induction series as [|[x|] series IH]; simpl; lia. Qed.

(** X12.  The counts of a frequency table add up to the number of cells of
    the column that hold a value; a record without a value is counted
    nowhere, so the sum can stay below the number of records. *)
Theorem value_counts_total (series : list cell) :
  list_sum (map snd (value_counts series)) = List.length (dropna series)
  /\ (list_sum (map snd (value_counts series)) <= List.length series)%nat.
Proof.
  assert (E : list_sum (map snd (value_counts series))
              = List.length (dropna series)).
  { unfold value_counts. rewrite (list_sum_perm _ _ (sort_desc_perm _)).
    rewrite map_map. cbn [snd].
    apply sum_occurrences.
    - apply (unique_nodup String.eqb String.eqb_eq).
    - intros v Hv. apply (unique_in String.eqb String.eqb_eq).
      now apply dropna_in. }
  split; [exact E|]. rewrite E. apply dropna_length.
Qed.

End DataLoaderMore.

(* ================================================================== *)
(** * Properties of [load_all_data] *)
(* ================================================================== *)

Module LoadingFacts.
Import DataLoader Os Loading Samples Notions.

(** The three steps of the call, each read off what is found at its path. *)
Lemma load_unified_cases (fs : FileSystem DataFrame) (r : Run) :
  match csv_at fs (unified_path (self r)) with
  | Some (Done df) =>
      exists line,
        load_unified fs r
        = ({| self := set_unified_data df (self r);
              printed := (printed r ++ [line])%list;
              data_dict := dict_set "unified_data" (Frame df) (data_dict r) |},
           None)
  | Some (Failed message) => load_unified fs r = (r, Some message)
  | None =>
      exists line,
        load_unified fs r
        = ({| self := self r; printed := (printed r ++ [line])%list;
              data_dict := data_dict r |}, None)
  end.
Proof.
  unfold csv_at, load_unified, unified_path.
  destruct (path_exists fs _); [|eexists; reflexivity].
  destruct (read_csv fs _); [eexists|]; reflexivity.
Qed.

Lemma load_reference_cases (fs : FileSystem DataFrame) (r : Run) :
  match csv_at fs (reference_path (self r)) with
  | Some (Done df) =>
      exists line,
        load_reference fs r
        = ({| self := set_reference_codes df (self r);
              printed := (printed r ++ [line])%list;
              data_dict := dict_set "reference_codes" (Frame df) (data_dict r) |},
           None)
  | Some (Failed message) => load_reference fs r = (r, Some message)
  | None =>
      exists line,
        load_reference fs r
        = ({| self := self r; printed := (printed r ++ [line])%list;
              data_dict := data_dict r |}, None)
  end.
Proof.
  unfold csv_at, load_reference, reference_path.
  destruct (path_exists fs _); [|eexists; reflexivity].
  destruct (read_csv fs _); [eexists|]; reflexivity.
Qed.

Lemma load_guide_cases (fs : FileSystem DataFrame) (r : Run) :
  exists line,
    load_guide fs r
    = match excel_at fs (guide_path (self r)) with
      | Some (Done sheets) =>
          {| self := set_additional_guide sheets (self r);
             printed := (printed r ++ [line])%list;
             data_dict := dict_set "additional_guide" (Sheets sheets) (data_dict r) |}
      | _ =>
          {| self := self r; printed := (printed r ++ [line])%list;
             data_dict := data_dict r |}
      end.
Proof.
  unfold excel_at, load_guide, guide_path.
  destruct (path_exists fs _); [|eexists; reflexivity].
  destruct (read_excel fs _); eexists; reflexivity.
Qed.

Ltac load_cases fs l :=
  unfold load_all_data;
  let r0 := constr:({| self := l; printed := []; data_dict := [] |}) in
  pose proof (load_unified_cases fs r0) as U; cbn [self] in U;
  destruct (csv_at fs (unified_path l)) as [[dfu|mu]|] eqn:EU;
  [ destruct U as [line1 U] | | destruct U as [line1 U] ];
  rewrite U; clear U;
  try match goal with
      | |- context [load_reference fs ?r1] =>
          pose proof (load_reference_cases fs r1) as R; cbn [self] in R;
          change (reference_path (set_unified_data _ l)) with (reference_path l) in R;
          destruct (csv_at fs (reference_path l)) as [[dfr|mr]|] eqn:ER;
          [ destruct R as [line2 R] | | destruct R as [line2 R] ];
          rewrite R; clear R
      end;
  try match goal with
      | |- context [load_guide fs ?r2] =>
          destruct (load_guide_cases fs r2) as [line3 G]; cbn [self] in G;
          rewrite G; clear G;
          match goal with
          | |- context [excel_at fs ?gp] =>
              change gp with (guide_path l);
              destruct (excel_at fs (guide_path l)) as [[sheets|mg]|] eqn:EG
          end
      end.

(** X13.  [load_all_data] raises exactly when a CSV file that exists cannot
    be read, the unified data first; a workbook that cannot be read never
    makes it raise.  When the reference codes cannot be read, the unified
    data read before them stays in the loader. *)
Theorem load_all_data_raises (fs : FileSystem DataFrame) (l : Loader) :
  (forall message,
      snd (load_all_data fs l) = Failed message
      <-> csv_at fs (unified_path l) = Some (Failed message)
          \/ ((forall m, csv_at fs (unified_path l) <> Some (Failed m))
              /\ csv_at fs (reference_path l) = Some (Failed message)))
  /\ (forall df message,
         csv_at fs (unified_path l) = Some (Done df) ->
         csv_at fs (reference_path l) = Some (Failed message) ->
         unified_data (tables (fst (fst (load_all_data fs l)))) = Some df).
Proof.
  split.
  - intros message. load_cases fs l; cbn [snd fst self printed data_dict];
      split; intros H;
      repeat match goal with
             | H : _ \/ _ |- _ => destruct H
             | H : _ /\ _ |- _ => destruct H
             end;
      try discriminate; try congruence;
      try (injection H as ->);
      try (left; reflexivity);
      try (right; split; [intros m; discriminate | reflexivity]);
      try (exfalso; eapply H; reflexivity).
  - intros df message HU HR.
    load_cases fs l; cbn [snd fst self printed data_dict]; try discriminate;
      injection HU as ->; reflexivity.
Qed.

Lemma load_all_data_raises_witness :
  snd (load_all_data
         (csv_files [("data/raw/ethiopia_fi_unified_data.csv", Done clean);
                     ("data/raw/reference_codes.csv", Failed "No columns to parse from file")])
         (init default_data_dir))
  = Failed "No columns to parse from file"
  /\ unified_data
       (tables (fst (fst (load_all_data
         (csv_files [("data/raw/ethiopia_fi_unified_data.csv", Done clean);
                     ("data/raw/reference_codes.csv", Failed "No columns to parse from file")])
         (init default_data_dir)))))
     = Some clean.
Proof.
  split.
  - apply (proj1 (load_all_data_raises _ _)). right. split.
    + intros m. discriminate.
    + reflexivity.
  - now apply (proj2 (load_all_data_raises _ _)) with "No columns to parse from file".
Defined.

(** X14.  When [load_all_data] returns, each of its three files is either
    read, and then the returned dictionary has its entry and the loader its
    attribute, or not read (missing, or a workbook that cannot be read), and
    then the dictionary has no entry for it and the attribute keeps the value
    it had before the call. *)
Theorem load_all_data_loaded (fs : FileSystem DataFrame) (l l' : Loader)
        (lines : list string) (d : dict Loading.loaded) :
  load_all_data fs l = (l', lines, Done d) ->
  match csv_at fs (unified_path l) with
  | Some (Done df) =>
      dict_get "unified_data" d = Some (Frame df)
      /\ unified_data (tables l') = Some df
  | _ =>
      dict_get "unified_data" d = None
      /\ unified_data (tables l') = unified_data (tables l)
  end
  /\ match csv_at fs (reference_path l) with
     | Some (Done df) =>
         dict_get "reference_codes" d = Some (Frame df)
         /\ reference_codes (tables l') = Some df
     | _ =>
         dict_get "reference_codes" d = None
         /\ reference_codes (tables l') = reference_codes (tables l)
     end
  /\ match excel_at fs (guide_path l) with
     | Some (Done sheets) =>
         dict_get "additional_guide" d = Some (Sheets sheets)
         /\ additional_guide l' = Some sheets
     | _ =>
         dict_get "additional_guide" d = None
         /\ additional_guide l' = additional_guide l
     end
  /\ data_dir l' = data_dir l.
Proof.
  revert l' lines d. load_cases fs l; intros l' lines d H;
    try discriminate; injection H as <- <- <-;
    cbn; repeat split; reflexivity.
Qed.

Lemma load_all_data_loaded_witness :
  match csv_at (csv_files [("data/raw/ethiopia_fi_unified_data.csv", Done clean)])
               (unified_path (init default_data_dir)) with
  | Some (Done df) =>
      dict_get "unified_data" [("unified_data", Frame clean)] = Some (Frame df)
      /\ Some clean = Some df
  | _ => False
  end
  /\ csv_at (csv_files [("data/raw/ethiopia_fi_unified_data.csv", Done clean)])
            (reference_path (init default_data_dir)) = None.
Proof.
  pose proof (load_all_data_loaded
                (csv_files [("data/raw/ethiopia_fi_unified_data.csv", Done clean)])
                (init default_data_dir) _ _ _ eq_refl) as (H & _).
  split; [exact H | reflexivity].
Defined.

Lemma validate_data_loaded_not_error (self : EthiopiaFIDataLoader)
      (unified reference : DataFrame) :
  unified_data self = Some unified ->
  reference_codes self = Some reference ->
  validate_data self <> Ok [("error", VMessage "Data not loaded")].
Proof.
  intros Hu Hr H.
  destruct (DataLoaderMore.validate_data_ok_inv self unified reference _ Hu Hr H)
    as (field & codes & types & _ & _ & _ & E).
  cbv zeta in E. unfold issue_entries in E.
  destruct (missing_cols unified); destruct (filter _ types); discriminate E.
Qed.

Lemma get_data_summary_loaded_not_empty (self : EthiopiaFIDataLoader)
      (unified : DataFrame) :
  unified_data self = Some unified ->
  get_data_summary self <> Ok [].
Proof.
  intros Hu. unfold get_data_summary. rewrite Hu.
  destruct (getitem unified "record_type"); cbn [Py.bind]; [|discriminate].
  destruct (getitem unified "pillar"); cbn [Py.bind]; [|discriminate].
  destruct (getitem unified "source_type"); cbn [Py.bind]; [|discriminate].
  destruct (getitem unified "confidence"); cbn [Py.bind]; discriminate.
Qed.

(** X15.  After [load_all_data] has returned on a new loader, the
    validator answers "Data not loaded" exactly when the file of the unified
    data or the file of the reference codes does not exist, and the
    summariser answers with the empty dictionary exactly when the file of the
    unified data does not exist. *)
Theorem load_then_validate (fs : FileSystem DataFrame) (dir : string)
        (l' : Loader) (lines : list string) (d : dict Loading.loaded) :
  load_all_data fs (init dir) = (l', lines, Done d) ->
  (validate_data (tables l') = Ok [("error", VMessage "Data not loaded")]
   <-> path_exists fs (unified_path (init dir)) = false
       \/ path_exists fs (reference_path (init dir)) = false)
  /\ (get_data_summary (tables l') = Ok []
      <-> path_exists fs (unified_path (init dir)) = false).
Proof.
  revert l' lines d. load_cases fs (init dir); intros l' lines d H;
    try discriminate; injection H as <- <- <-;
    unfold csv_at in EU, ER;
    destruct (path_exists fs (unified_path (init dir))) eqn:PU;
    destruct (path_exists fs (reference_path (init dir))) eqn:PR;
    try discriminate;
    cbn [tables self set_unified_data set_reference_codes set_additional_guide init
         unified_data reference_codes];
    (split; split; intros H;
     try reflexivity; try tauto; try discriminate;
     try (exfalso; revert H;
          first [ eapply validate_data_loaded_not_error; reflexivity
                | eapply get_data_summary_loaded_not_empty; reflexivity ]);
     try (destruct H; discriminate)).
Qed.

Lemma load_then_validate_witness :
  (validate_data
     {| unified_data := Some clean; reference_codes := None |}
   = Ok [("error", VMessage "Data not loaded")]
   <-> path_exists (csv_files [("data/raw/ethiopia_fi_unified_data.csv", Done clean)])
                   (unified_path (init default_data_dir)) = false
       \/ path_exists (csv_files [("data/raw/ethiopia_fi_unified_data.csv", Done clean)])
                      (reference_path (init default_data_dir)) = false)
  /\ (get_data_summary {| unified_data := Some clean; reference_codes := None |}
      = Ok []
      <-> path_exists (csv_files [("data/raw/ethiopia_fi_unified_data.csv", Done clean)])
                      (unified_path (init default_data_dir)) = false).
Proof.
  exact (load_then_validate
           (csv_files [("data/raw/ethiopia_fi_unified_data.csv", Done clean)])
           default_data_dir _ _ _ eq_refl).
Defined.

(** X16.  When [load_all_data] returns it has printed three lines, one
    for each file; when it raises it has printed one line for each file
    before the one that could not be read. *)
Theorem load_all_data_prints (fs : FileSystem DataFrame) (l : Loader) :
  List.length (snd (fst (load_all_data fs l)))
  = match load_all_data fs l with
    | (_, _, Done _) => 3%nat
    | (_, _, Failed _) =>
        match csv_at fs (unified_path l) with
        | Some (Failed _) => 0%nat
        | _ => 1%nat
        end
    end.
Proof.
  load_cases fs l; cbn [fst snd self printed]; reflexivity.
Qed.

End LoadingFacts.

(* ================================================================== *)
(** * Properties of the dashboard's loading and display helpers *)
(* ================================================================== *)

Module AppFacts.
Import Os Dashboard App Samples Notions.

(** ** Paths *)










(** ** [load_data] *)

Lemma load_file_frame (fs : FileSystem Frame) (filename : string) :
  snd (load_file fs filename) = file_frame fs filename.
Proof.
  unfold load_file, file_frame, csv_at.
  destruct (path_exists fs _); [|reflexivity].
  now destruct (read_csv fs _).
Qed.

(** The dictionary and the number of messages of [load_data], from the
    frames found for the six files. *)
Lemma load_data_frames (fs : FileSystem Frame) :
  snd (load_data fs)
  = (if forallb (fun file => empty (file_frame fs (snd file))) files_to_load
     then create_demo_data
     else map (fun file => (fst file, file_frame fs (snd file))) files_to_load)
  /\ List.length (fst (load_data fs))
     = (if forallb (fun file => empty (file_frame fs (snd file))) files_to_load
        then 7 else 6)%nat.
Proof.
  unfold load_data, files_to_load. cbn [fold_left map forallb fst snd].
  rewrite <- !load_file_frame.
  repeat match goal with
         | |- context [load_file fs ?f] =>
             destruct (load_file fs f) as [? ?]
         end.
  cbn [fst snd app dict_set String.eqb Ascii.eqb Bool.eqb forallb].
  match goal with
  | |- context [if ?b then _ else _] => destruct b
  end; split; reflexivity.
Qed.

(** X18.  Whatever the files, the dictionary returned by [load_data] has
    the six keys that the dashboard reads, and no other. *)
Theorem load_data_keys (fs : FileSystem Frame) (key : string) :
  In key (dict_keys (snd (load_data fs)))
  <-> In key ["account_forecast"; "p2p_forecast"; "scenarios"; "enriched";
              "impact_matrix"; "historical"].
Proof.
  rewrite (proj1 (load_data_frames fs)).
  destruct (forallb _ files_to_load); cbn; tauto.
Qed.

(** X19.  When every one of the six files is missing, unreadable or
    without rows, [load_data] returns the demonstration data and shows seven
    messages; otherwise it returns, for each key, the frame read for its
    file, or the frame without rows and columns when the file is missing or
    unreadable, and shows six messages. *)
Theorem load_data_result (fs : FileSystem Frame) :
  snd (load_data fs)
  = (if forallb (fun file => empty (file_frame fs (snd file))) files_to_load
     then create_demo_data
     else map (fun file => (fst file, file_frame fs (snd file))) files_to_load)
  /\ List.length (fst (load_data fs))
     = (if forallb (fun file => empty (file_frame fs (snd file))) files_to_load
        then 7 else 6)%nat.
Proof. apply load_data_frames. Qed.

Ltac show_frame key :=
  exists key; eexists; split; [reflexivity | first [assumption | reflexivity]].

(** X20.  The dictionary returned by [load_data] always holds a frame that
    is not empty: the dashboard is never left with empty tables only. *)
Theorem load_data_not_all_empty (fs : FileSystem Frame) :
  exists key df,
    dict_get key (snd (load_data fs)) = Some df /\ empty df = false.
Proof.
  rewrite (proj1 (load_data_frames fs)).
  unfold files_to_load. cbn [forallb map fst snd].
  repeat match goal with
         | |- context [empty (file_frame fs ?f)] =>
             destruct (empty (file_frame fs f)) eqn:?
         end;
    cbn [andb];
    first [ show_frame "account_forecast" | show_frame "p2p_forecast"
          | show_frame "scenarios" | show_frame "enriched"
          | show_frame "impact_matrix" | show_frame "historical" ].
Qed.

(** ** Notes of an event *)


Lemma take_all (n : nat) (s : string) :
  (String.length s <= n)%nat -> take n s = s.
Proof.
  unfold take. revert s. induction n as [|n IH]; intros [|c s] H; simpl in *;
    try reflexivity; try lia.
  rewrite IH by lia. reflexivity.
Qed.


(** ** Growth of the forecast rows *)

Lemma growth_from_length (prev : Z * float) (rest : list (Z * float)) :
  List.length (growth_from prev rest) = List.length rest.
Proof.
  revert prev. induction rest as [|cur rest IH]; intros prev; simpl;
    [reflexivity | now rewrite IH].
Qed.

Lemma forecast_from_length (prev : float) (rows : list (string * float)) :
  List.length (forecast_from prev rows) = List.length rows.
Proof.
  revert prev. induction rows as [|row rows IH]; intros prev; simpl;
    [reflexivity | now rewrite IH].
Qed.

(** X22.  The growth table has one entry for each pair of consecutive
    historical rows and one for each forecast row, so it is empty, and the
    page says that data is insufficient, exactly when there are fewer than
    two historical rows and no forecast row.  The entry of a forecast row
    gives its change as the annual change too, without dividing by a number
    of years, and the first forecast row is compared with the last
    historical value, or with 0 when there is none. *)
Theorem growth_analysis_entries (acc_series : list (Z * float))
        (account_forecast : list (string * float)) :
  List.length (growth_analysis acc_series account_forecast)
  = (pred (List.length acc_series) + List.length account_forecast)%nat
  /\ (growth_analysis acc_series account_forecast = []
      <-> (List.length acc_series <= 1)%nat /\ account_forecast = [])
  /\ (forall previous,
         Forall (fun entry => Annual_pp entry = Growth_pp entry)
                (forecast_from previous account_forecast))
  /\ (forall row rows,
         account_forecast = row :: rows ->
         nth_error (growth_analysis acc_series account_forecast)
                   (pred (List.length acc_series))
         = Some (forecast_row (last_historical acc_series) row)).
Proof.
  assert (L : List.length (growth_data acc_series)
              = pred (List.length acc_series)).
  { destruct acc_series as [|first rest]; [reflexivity|].
    simpl. apply growth_from_length. }
  unfold growth_analysis. split; [|split; [|split]].
  - now rewrite length_app, L, forecast_from_length.
  - split.
    + intros H. apply (f_equal (@List.length _)) in H.
      rewrite length_app, L, forecast_from_length in H. simpl in H.
      split; [lia|]. destruct account_forecast; [reflexivity|simpl in H; lia].
    + intros [H ->]. simpl. rewrite app_nil_r.
      destruct (growth_data acc_series); [reflexivity|].
      simpl in L. lia.
  - intros previous. revert previous.
    induction account_forecast as [|row rows IH]; intros previous; simpl;
      constructor; [reflexivity | apply IH].
  - intros row rows ->. rewrite nth_error_app2 by lia.
    rewrite L, Nat.sub_diag. reflexivity.
Qed.

(** ** The order of the milestones *)

Local Open Scope float_scope.

(** Between two positive finite floats [a <= b], what reaches [b] reaches
    [a]. *)
Lemma leb_lower (a b v : float) (ma mb : positive) (ea eb : Z) :
  Prim2SF a = S754_finite false ma ea ->
  Prim2SF b = S754_finite false mb eb ->
  (ea < eb \/ (ea = eb /\ (ma <= mb)%positive))%Z ->
  (b <=? v) = true -> (a <=? v) = true.
Proof.
  intros Ha Hb Hlt. rewrite !leb_spec, Ha, Hb.
  unfold SFleb, SFcompare.
  destruct (Prim2SF v) as [s|s| |s m e]; try discriminate;
    try (destruct s; auto; fail).
  destruct s; [discriminate|].
  change (Pos.compare_cont Eq mb m) with (Pos.compare mb m).
  change (Pos.compare_cont Eq ma m) with (Pos.compare ma m).
  destruct (Z.compare_spec eb e) as [Z1|Z1|Z1],
    (Z.compare_spec ea e) as [Z2|Z2|Z2],
    (Pos.compare_spec mb m) as [P1|P1|P1],
    (Pos.compare_spec ma m) as [P2|P2|P2];
    intros K; try reflexivity; try discriminate K; lia.
Qed.

Lemma reaches_60_50 (v : float) : reaches v 60 = true -> reaches v 50 = true.
Proof.
  unfold reaches.
  apply (leb_lower _ _ v 7036874417766400 8444249301319680 (-47) (-47));
    [reflexivity | reflexivity |].
  right. split; [reflexivity | lia].
Qed.

Lemma reaches_70_60 (v : float) : reaches v 70 = true -> reaches v 60 = true.
Proof.
  unfold reaches.
  apply (leb_lower _ _ v 8444249301319680 4925812092436480 (-47) (-46));
    [reflexivity | reflexivity |].
  left. lia.
Qed.

Lemma thresholds_check (year : Z) (proj : float) (t : Z) (label : string)
      (ms : list milestone) :
  map m_threshold (check year proj t label ms)
  = if reaches proj t && negb (existsb (Z.eqb t) (map m_threshold ms))
    then (map m_threshold ms ++ [t])%list
    else map m_threshold ms.
Proof.
  unfold check, recorded.
  destruct (reaches proj t && negb (existsb (Z.eqb t) (map m_threshold ms)));
    [|reflexivity].
  now rewrite map_app.
Qed.

Lemma thresholds_body (ms : list milestone) (row : Z * float) :
  (exists n, map m_threshold ms = firstn n [50; 60; 70]%Z) ->
  exists n, map m_threshold (milestones_body ms row) = firstn n [50; 60; 70]%Z.
Proof.
  intros [n H]. destruct row as [year proj]. unfold milestones_body.
  rewrite !thresholds_check, H.
  pose proof (reaches_60_50 proj) as H65.
  pose proof (reaches_70_60 proj) as H76.
  destruct n as [|[|[|n]]]; cbn [firstn];
    destruct (reaches proj 50) eqn:R50, (reaches proj 60) eqn:R60,
      (reaches proj 70) eqn:R70;
    try (specialize (H65 eq_refl); discriminate);
    try (specialize (H76 eq_refl); discriminate);
    cbn; rewrite ?firstn_nil;
    first [ now exists 0%nat | now exists 1%nat | now exists 2%nat
          | now exists 3%nat ].
Qed.

(** X23.  The milestones come out in the order of the thresholds: the
    thresholds recorded are 50, then 60, then 70, up to the highest one that
    some projection reaches; a threshold is never recorded without the lower
    ones before it. *)
Theorem milestones_in_threshold_order (series : list (Z * float)) :
  exists n, map m_threshold (milestones series) = firstn n [50; 60; 70]%Z.
Proof.
  unfold milestones.
  assert (G : forall ms,
             (exists n, map m_threshold ms = firstn n [50; 60; 70]%Z) ->
             exists n, map m_threshold (fold_left milestones_body series ms)
                       = firstn n [50; 60; 70]%Z).
  { induction series as [|row series IH]; intros ms H; simpl; [exact H|].
    apply IH. now apply thresholds_body. }
  apply G. now exists 0%nat.
Qed.

End AppFacts.
